(** * Slide-deck generator and concept lookup: a shallow embedding

    The development follows the two Python modules of the repository:
    [knowledge_graph.py] (a literal table of concepts, persisted as JSON and
    queried by exact key) and [slides.py] (template filling that turns one
    concept into five slide dictionaries and a narration script).

    Python values are modelled as the code uses them: a [str] is a sequence of
    Unicode code points, a [dict] is an association list in insertion order,
    JSON data is a tagged union, exceptions are an error monad, and the file
    system and the console are threaded explicitly through [main]. *)

From Stdlib Require Import Strings.String Strings.Ascii DecimalString.
From Stdlib Require Import List Bool Arith ZArith NArith Lia.
Import ListNotations.

Set Implicit Arguments.

(* ===================================================================== *)
(** ** Python strings *)
(* ===================================================================== *)

(** A Python 3 [str] is a sequence of code points. *)
Definition char := N.
Definition str := list char.

(** Source literals are written as they appear in the Python files; the
    bytes of the literal are decoded from UTF-8 into code points. *)
Fixpoint utf8_decode (bytes : list N) : str :=
  match bytes with
  | [] => []
  | b0 :: r0 =>
      if (b0 <? 128)%N then b0 :: utf8_decode r0
      else match r0 with
           | [] => []
           | b1 :: r1 =>
               if (b0 <? 224)%N
               then ((b0 - 192) * 64 + (b1 - 128))%N :: utf8_decode r1
               else match r1 with
                    | [] => []
                    | b2 :: r2 =>
                        if (b0 <? 240)%N
                        then ((b0 - 224) * 4096 + (b1 - 128) * 64
                              + (b2 - 128))%N :: utf8_decode r2
                        else match r2 with
                             | [] => []
                             | b3 :: r3 =>
                                 ((b0 - 240) * 262144 + (b1 - 128) * 4096
                                  + (b2 - 128) * 64 + (b3 - 128))%N
                                 :: utf8_decode r3
                             end
                    end
           end
  end.

Definition u (lit : string) : str :=
  utf8_decode (map N_of_ascii (list_ascii_of_string lit)).
Arguments u lit%_string.

Definition NEWLINE : str := [10%N].

Fixpoint str_eqb (a b : str) : bool :=
  match a, b with
  | [], [] => true
  | x :: a', y :: b' => (x =? y)%N && str_eqb a' b'
  | _, _ => false
  end.

(** [str.isspace] on one code point: the characters CPython's
    [_PyUnicode_IsWhitespace] accepts. *)
Definition isspace (c : char) : bool :=
  ((9 <=? c) && (c <=? 13) || (28 <=? c) && (c <=? 32)
   || (c =? 133) || (c =? 160) || (c =? 5760)
   || (8192 <=? c) && (c <=? 8202)
   || (c =? 8232) || (c =? 8233) || (c =? 8239) || (c =? 8287)
   || (c =? 12288))%N.

(** [text.split()] with no separator: scan left to right, close the current
    word at each whitespace character, never emit an empty word. *)
Fixpoint split_scan (word : str) (text : str) : list str :=
  match text with
  | [] => match word with [] => [] | _ => [word] end
  | c :: rest =>
      if isspace c
      then match word with
           | [] => split_scan [] rest
           | _ => word :: split_scan [] rest
           end
      else split_scan (word ++ [c]) rest
  end.

Definition split (text : str) : list str := split_scan [] text.

(** [sep.join(items)] on a list of strings. *)
Fixpoint str_join (sep : str) (items : list str) : str :=
  match items with
  | [] => []
  | [x] => x
  | x :: rest => x ++ sep ++ str_join sep rest
  end.

(** [xs[:stop]]: a negative [stop] counts from the end. *)
Definition slice_upto {A} (stop : Z) (xs : list A) : list A :=
  if (0 <=? stop)%Z then firstn (Z.to_nat stop) xs
  else firstn (length xs - Z.to_nat (- stop)) xs.

Definition len {A} (xs : list A) : Z := Z.of_nat (length xs).

(* ===================================================================== *)
(** ** slides.py: utilities *)
(* ===================================================================== *)

Definition BULLETS_PER_SLIDE : Z := 3.

Definition safe_join (lst : list str) : str :=
  str_join (u ", ")
           (filter (fun x => match x with [] => false | _ => true end) lst).

Definition truncate_text (text : str) (max_words : Z) : str :=
  let words := split text in
  str_join (u " ") (slice_upto max_words words)
  ++ (if (len words >? max_words)%Z then u "..." else u "").

(** The truncation rule in the words of the specification: keep the first
    [N] words, rejoin with single spaces, mark with an ellipsis exactly when
    words were dropped. *)
Definition truncation_rule (N : nat) (text : str) : str :=
  let words := split text in
  str_join [32%N] (firstn N words)
  ++ (if N <? length words then [46%N; 46%N; 46%N] else []).

(* ===================================================================== *)
(** ** Exceptions and Python values *)
(* ===================================================================== *)

Inductive exn : Set :=
| KeyError | ValueError | IndexError | TypeError | AttributeError
| FileNotFoundError | JSONDecodeError
| OffSchema.  (* a table entry outside the schema the model covers *)

Inductive result (A : Type) : Type :=
| Ok (a : A)
| Raise (e : exn).
Arguments Ok {A} a.
Arguments Raise {A} e.

Definition bind {A B} (r : result A) (k : A -> result B) : result B :=
  match r with
  | Ok a => k a
  | Raise e => Raise e
  end.

Declare Scope py_scope.
Delimit Scope py_scope with py.
Notation "x <- r ;; k" := (bind r (fun x => k))
  (at level 61, r at next level, right associativity) : py_scope.
Open Scope py_scope.

(** The values the two modules build, store and load: what JSON carries,
    floats apart (no number of the program is a float).  A [JDict] lists
    its items in insertion order, with distinct keys. *)
Unset Elimination Schemes.
Inductive json : Type :=
| JNull
| JBool (b : bool)
| JInt (z : Z)
| JStr (s : str)
| JList (items : list json)
| JDict (items : list (str * json)).
Set Elimination Schemes.

Fixpoint dict_get (d : list (str * json)) (k : str) : option json :=
  match d with
  | [] => None
  | (k', v) :: rest => if str_eqb k' k then Some v else dict_get rest k
  end.

Definition dict_has (d : list (str * json)) (k : str) : bool :=
  match dict_get d k with Some _ => true | None => false end.

Fixpoint is_prefix (p s : str) : bool :=
  match p, s with
  | [], _ => true
  | _ :: _, [] => false
  | x :: p', y :: s' => (x =? y)%N && is_prefix p' s'
  end.

Fixpoint is_substring (p s : str) : bool :=
  is_prefix p s || match s with [] => false | _ :: s' => is_substring p s' end.

(** [bool(x)] *)
Definition truthy (x : json) : bool :=
  match x with
  | JNull => false
  | JBool b => b
  | JInt z => negb (z =? 0)%Z
  | JStr s => match s with [] => false | _ => true end
  | JList l => match l with [] => false | _ => true end
  | JDict d => match d with [] => false | _ => true end
  end.

(** [key in container], for a string key *)
Definition contains (container : json) (key : str) : result bool :=
  match container with
  | JDict d => Ok (dict_has d key)
  | JList l =>
      Ok (existsb (fun x => match x with JStr s => str_eqb s key | _ => false end) l)
  | JStr s => Ok (is_substring key s)
  | _ => Raise TypeError
  end.

(** [container[key]], for a string key *)
Definition subscript (container : json) (key : str) : result json :=
  match container with
  | JDict d => match dict_get d key with Some v => Ok v | None => Raise KeyError end
  | _ => Raise TypeError
  end.

(** [container[i]], for an integer index *)
Definition subscript_int (container : json) (i : Z) : result json :=
  match container with
  | JList l =>
      let idx := if (i <? 0)%Z then (i + len l)%Z else i in
      if (0 <=? idx)%Z
      then match nth_error l (Z.to_nat idx) with
           | Some v => Ok v
           | None => Raise IndexError
           end
      else Raise IndexError
  | JStr s =>
      let idx := if (i <? 0)%Z then (i + len s)%Z else i in
      if (0 <=? idx)%Z
      then match nth_error s (Z.to_nat idx) with
           | Some c => Ok (JStr [c])
           | None => Raise IndexError
           end
      else Raise IndexError
  | JDict _ => Raise KeyError
  | _ => Raise TypeError
  end.

(** [obj.get(key, default)] *)
Definition get (obj : json) (key : str) (default : json) : result json :=
  match obj with
  | JDict d => match dict_get d key with Some v => Ok v | None => Ok default end
  | _ => Raise AttributeError
  end.

Fixpoint all_str (items : list json) : result (list str) :=
  match items with
  | [] => Ok []
  | JStr s :: rest => strs <- all_str rest ;; Ok (s :: strs)
  | _ :: _ => Raise TypeError
  end.

(** [sep.join(items)] on a list of values: every item must be a [str]. *)
Definition join (sep : str) (items : list json) : result str :=
  strs <- all_str items ;; Ok (str_join sep strs).

(* ===================================================================== *)
(** ** [str.format] with keyword arguments *)
(* ===================================================================== *)

(** The templates of [slides.py] only use plain named fields, and so does
    this model: conversions ([!r]), format specifications ([:>10]) and
    attribute or index lookups inside a field are not interpreted. *)
Inductive fstate : Type :=
| Text                 (* copying literal text *)
| Opened               (* just read an opening brace *)
| Field (name : str)   (* reading a field name *)
| Closed.              (* just read a closing brace outside a field *)

Definition LBRACE : char := 123%N.
Definition RBRACE : char := 125%N.

Fixpoint kw_get (kwargs : list (str * str)) (name : str) : option str :=
  match kwargs with
  | [] => None
  | (k, v) :: rest => if str_eqb k name then Some v else kw_get rest name
  end.

Definition emit (piece : str) (r : result str) : result str :=
  out <- r ;; Ok (piece ++ out).

Fixpoint format_scan (st : fstate) (template : str) (kwargs : list (str * str))
  : result str :=
  match template with
  | [] => match st with Text => Ok [] | _ => Raise ValueError end
  | c :: rest =>
      match st with
      | Text =>
          if (c =? LBRACE)%N then format_scan Opened rest kwargs
          else if (c =? RBRACE)%N then format_scan Closed rest kwargs
          else emit [c] (format_scan Text rest kwargs)
      | Opened =>
          if (c =? LBRACE)%N then emit [LBRACE] (format_scan Text rest kwargs)
          else if (c =? RBRACE)%N then Raise IndexError
          else format_scan (Field [c]) rest kwargs
      | Field name =>
          if (c =? RBRACE)%N
          then match kw_get kwargs name with
               | Some v => emit v (format_scan Text rest kwargs)
               | None => Raise KeyError
               end
          else if (c =? LBRACE)%N then Raise ValueError
          else format_scan (Field (name ++ [c])) rest kwargs
      | Closed =>
          if (c =? RBRACE)%N then emit [RBRACE] (format_scan Text rest kwargs)
          else Raise ValueError
      end
  end.

Definition format (template : str) (kwargs : list (str * str)) : result str :=
  format_scan Text template kwargs.

(* ===================================================================== *)
(** ** slides.py: templates and the generator *)
(* ===================================================================== *)

Definition TITLE_INTRO_TEMPLATE : str :=
  u "Welcome — today we'll learn about {concept}.".

Definition DEFINITION_TEMPLATE_BEGINNER : str :=
  u "{concept} can be understood as: {definition} "
  ++ u "I'll explain the idea step by step with a simple example.".

Definition DEFINITION_TEMPLATE_ADVANCED : str :=
  u "Formally, {concept} is: {definition} "
  ++ u "We'll also highlight important properties and implications.".

Definition EXAMPLE_TEMPLATE : str :=
  u "Example: Consider {example_brief}. This demonstrates the main idea: {example_point}.".

Definition RELATED_TEMPLATE : str :=
  u "Related topics you might want to learn next: {related_list}.".

(** The two strings the example slide is built from (lines 97-105). *)
Definition example_brief (related : list str) : str :=
  match related with
  | related_0 :: _ => u "a simple case involving " ++ related_0
  | [] => u "a simple conceptual scenario"
  end.

Definition example_point (concept_name : str) (related : list str) : str :=
  match related with
  | related_0 :: _ =>
      u "how " ++ concept_name ++ u " uses " ++ related_0
      ++ u " in structure/operation"
  | [] => u "the core intuition behind " ++ concept_name
  end.

(** [generate_slide_deck].  [utcnow] is the reading of the clock,
    [datetime.utcnow().isoformat()], taken when the deck is assembled. *)
Definition generate_slide_deck (utcnow : str)
    (concept_name definition : str) (related : list str)
    (audience_level : str) : result (json * str) :=
  let slides : list json := [] in
  let narration_lines : list json := [] in

  (* Slide 0: title *)
  let title_slide := JDict
    [ (u "type", JStr (u "title"));
      (u "title", JStr (u "Introduction to " ++ concept_name));
      (u "subtitle", JStr (truncate_text definition 15));
      (u "duration_sec", JInt 4) ] in
  let slides := slides ++ [title_slide] in
  intro <- format TITLE_INTRO_TEMPLATE [(u "concept", concept_name)] ;;
  let narration_lines := narration_lines ++ [JStr intro] in

  (* Slide 1: definition *)
  let def_template :=
    if str_eqb audience_level (u "beginner")
    then DEFINITION_TEMPLATE_BEGINNER else DEFINITION_TEMPLATE_ADVANCED in
  definition_text <-
    format def_template [(u "concept", concept_name); (u "definition", definition)] ;;
  let definition_slide := JDict
    [ (u "type", JStr (u "definition"));
      (u "title", JStr (u "What is " ++ concept_name ++ u "?"));
      (u "bullets", JList [JStr (truncate_text definition 20)]);
      (u "notes", JStr definition_text);
      (u "duration_sec", JInt 10) ] in
  let slides := slides ++ [definition_slide] in
  let narration_lines := narration_lines ++ [JStr definition_text] in

  (* Slide 2: example *)
  let example_brief := example_brief related in
  let example_point := example_point concept_name related in
  example_notes <-
    format EXAMPLE_TEMPLATE
      [(u "example_brief", example_brief); (u "example_point", example_point)] ;;
  let example_slide := JDict
    [ (u "type", JStr (u "example"));
      (u "title", JStr (u "Simple example: " ++ truncate_text example_brief 6));
      (u "bullets", JList
         [ JStr (u "Set up the scenario");
           JStr (u "Apply the core idea of " ++ concept_name);
           JStr (u "Observe the result / takeaway") ]);
      (u "notes", JStr example_notes);
      (u "duration_sec", JInt 12) ] in
  let slides := slides ++ [example_slide] in
  notes <- subscript example_slide (u "notes") ;;
  let narration_lines := narration_lines ++ [notes] in

  (* Slide 3: related topics *)
  let related_list_str :=
    match related with
    | _ :: _ => safe_join related
    | [] => u "No related topics available."
    end in
  related_notes <- format RELATED_TEMPLATE [(u "related_list", related_list_str)] ;;
  let related_slide := JDict
    [ (u "type", JStr (u "related"));
      (u "title", JStr (u "Related topics & next steps"));
      (u "bullets",
         match related with
         | _ :: _ => JList (map JStr related)
         | [] => JList [JStr (u "Further reading not available")]
         end);
      (u "notes", JStr related_notes);
      (u "duration_sec", JInt 6) ] in
  let slides := slides ++ [related_slide] in
  notes <- subscript related_slide (u "notes") ;;
  let narration_lines := narration_lines ++ [notes] in

  (* Final: summary *)
  let summary :=
    u "In summary, " ++ concept_name ++ u ": " ++ truncate_text definition 20 in
  let slides := slides ++
    [ JDict
        [ (u "type", JStr (u "summary"));
          (u "title", JStr (u "Summary"));
          (u "bullets", JList [JStr (truncate_text definition 20)]);
          (u "notes", JStr summary);
          (u "duration_sec", JInt 6) ] ] in
  let narration_lines := narration_lines ++ [JStr summary] in

  full_script <- join (NEWLINE ++ NEWLINE) narration_lines ;;

  let deck := JDict
    [ (u "concept", JStr concept_name);
      (u "generated_at", JStr (utcnow ++ u "Z"));
      (u "audience_level", JStr audience_level);
      (u "slides", JList slides) ] in
  Ok (deck, full_script).

(* ===================================================================== *)
(** ** knowledge_graph.py *)
(* ===================================================================== *)

Definition concept_entry (definition : str) (related : list str) : json :=
  JDict [ (u "definition", JStr definition);
          (u "related", JList (map JStr related)) ].

Definition knowledge_graph : json := JDict
  [ (u "Data Structures",
       concept_entry (u "Ways to store and organize data efficiently.")
                     [u "Arrays"; u "Linked List"; u "Trees"]);
    (u "Algorithms",
       concept_entry (u "Step-by-step procedures to solve problems.")
                     [u "Sorting"; u "Searching"]);
    (u "Trees",
       concept_entry (u "A hierarchical data structure with nodes.")
                     [u "Binary Tree"; u "Graphs"]);
    (u "Graphs",
       concept_entry (u "A collection of nodes connected by edges.")
                     [u "Trees"; u "Graph Traversal"]) ].

(** [get_concept_info]; the module-level table [kg] it reads is passed in.
    The result is the tuple [(definition, related)]. *)
Definition get_concept_info (kg : json) (concept : str) : result (json * json) :=
  found <- contains kg concept ;;
  if found then
    entry <- subscript kg concept ;;
    definition <- subscript entry (u "definition") ;;
    entry <- subscript kg concept ;;
    related <- subscript entry (u "related") ;;
    Ok (definition, related)
  else Ok (JNull, JList []).

(** The outcome the specification calls NOT_FOUND. *)
Definition NOT_FOUND : json * json := (JNull, JList []).

(* ===================================================================== *)
(** ** Files and console *)
(* ===================================================================== *)

Record world : Type := World {
  files : list (str * str);   (* path -> contents *)
  stdout : str;               (* everything printed so far *)
  clock : str                 (* what datetime.utcnow().isoformat() reads *)
}.

Definition io (A : Type) : Type := world -> result A * world.

Definition io_ret {A} (a : A) : io A := fun w => (Ok a, w).

Definition io_bind {A B} (m : io A) (k : A -> io B) : io B :=
  fun w => match m w with
           | (Ok a, w') => k a w'
           | (Raise e, w') => (Raise e, w')
           end.

Definition lift {A} (r : result A) : io A := fun w => (r, w).

Declare Scope io_scope.
Delimit Scope io_scope with io.
Notation "x <- m ;; k" := (io_bind m (fun x => k))
  (at level 61, m at next level, right associativity) : io_scope.
Notation "m ;;; k" := (io_bind m (fun _ => k))
  (at level 61, right associativity) : io_scope.

Fixpoint file_get (fs : list (str * str)) (path : str) : option str :=
  match fs with
  | [] => None
  | (p, c) :: rest => if str_eqb p path then Some c else file_get rest path
  end.

Fixpoint file_put (fs : list (str * str)) (path content : str)
  : list (str * str) :=
  match fs with
  | [] => [(path, content)]
  | (p, c) :: rest =>
      if str_eqb p path then (p, content) :: rest
      else (p, c) :: file_put rest path content
  end.

(** [with open(path, "r") as f: f.read()] *)
Definition read_file (path : str) : io str :=
  fun w => match file_get (files w) path with
           | Some c => (Ok c, w)
           | None => (Raise FileNotFoundError, w)
           end.

(** [with open(path, "w") as f: f.write(content)] *)
Definition write_file (path content : str) : io unit :=
  fun w => (Ok tt, World (file_put (files w) path content) (stdout w) (clock w)).

(** [print(text)] *)
Definition print (text : str) : io unit :=
  fun w => (Ok tt, World (files w) (stdout w ++ text ++ NEWLINE) (clock w)).

Definition utcnow_isoformat : io str := fun w => (Ok (clock w), w).

Fixpoint for_each {A} (xs : list A) (body : A -> io unit) : io unit :=
  match xs with
  | [] => io_ret tt
  | x :: rest => io_bind (body x) (fun _ => for_each rest body)
  end.

Fixpoint enumerate_from {A} (i : nat) (xs : list A) : list (nat * A) :=
  match xs with
  | [] => []
  | x :: rest => (i, x) :: enumerate_from (S i) rest
  end.

Definition enumerate {A} (xs : list A) : list (nat * A) := enumerate_from 0 xs.

(** Iterating a value: a list gives its items, a dict its keys, a string
    its characters. *)
Definition iterate (x : json) : result (list json) :=
  match x with
  | JList l => Ok l
  | JDict d => Ok (map (fun kv => JStr (fst kv)) d)
  | JStr s => Ok (map (fun c => JStr [c]) s)
  | _ => Raise TypeError
  end.

Definition decimal (n : nat) : str :=
  u (DecimalString.NilEmpty.string_of_uint (Nat.to_uint n)).

(** [str(x)], as [print] and f-strings apply it.  The [repr] of a list or
    a dict is not modelled. *)
Definition to_str (x : json) : result str :=
  match x with
  | JStr s => Ok s
  | JInt z =>
      Ok (if (z <? 0)%Z then u "-" ++ decimal (Z.to_nat (- z))
          else decimal (Z.to_nat z))
  | JBool b => Ok (if b then u "True" else u "False")
  | JNull => Ok (u "None")
  | _ => Raise OffSchema
  end.

Definition as_str (x : json) : result str :=
  match x with JStr s => Ok s | _ => Raise TypeError end.

Fixpoint last_segment (acc path : str) : str :=
  match path with
  | [] => acc
  | c :: rest => if (c =? 47)%N then last_segment [] rest
                 else last_segment (acc ++ [c]) rest
  end.

(** [os.path.basename] on a POSIX path *)
Definition basename (path : str) : str := last_segment [] path.

(* ===================================================================== *)
(** ** The scripts: persisting, reloading, orchestration *)
(* ===================================================================== *)

Section Scripts.

(** The [json] library is not part of the repository: its encoder and
    decoder are parameters.  [json_dumps indent x] is the text
    [json.dumps(x, indent=indent)]; [json_loads] answers [None] where
    [json.loads] raises [JSONDecodeError]. *)
Variable json_dumps : option Z -> json -> str.
Variable json_loads : str -> option json.

Local Open Scope io_scope.

(** [json.dump(obj, f, indent=indent)] into a file opened for writing *)
Definition json_dump_to (path : str) (obj : json) (indent : option Z) : io unit :=
  write_file path (json_dumps indent obj).

(** [json.load(f)] from a file opened for reading *)
Definition json_load_from (path : str) : io json :=
  content <- read_file path ;;
  match json_loads content with
  | Some x => io_ret x
  | None => lift (Raise JSONDecodeError)
  end.

(** The body of [knowledge_graph.py]: persist the literal table, reload
    it, answer the test query. *)
Definition knowledge_graph_script : io unit :=
  json_dump_to (u "knowledge_graph.json") knowledge_graph (Some 4%Z) ;;;
  kg <- json_load_from (u "knowledge_graph.json") ;;
  let query := u "Trees" in
  info <- lift (get_concept_info kg query) ;;
  let '(definition, related) := info in
  if truthy definition then
    print (u "📘 Concept: " ++ query) ;;;
    definition_s <- lift (to_str definition) ;;
    print (u "📖 Definition: " ++ definition_s) ;;;
    items <- lift (iterate related) ;;
    joined <- lift (join (u ", ") items) ;;
    print (u "🔗 Related Topics: " ++ joined)
  else
    print (u "❌ Sorry, the concept '" ++ query
           ++ u "' was not found in the knowledge graph.").

(** [write_simple_manim]: returns [out_path], or [None] when the deck has
    no first slide. *)
Definition write_simple_manim (deck : json) (out_path : str) : io json :=
  slides <- lift (subscript deck (u "slides")) ;;
  first_slide <- (if truthy slides then lift (subscript_int slides 0)
                  else io_ret JNull) ;;
  if negb (truthy first_slide) then io_ret JNull
  else
    title <- lift (get first_slide (u "title") (JStr (u "Title"))) ;;
    subtitle <- lift (get first_slide (u "subtitle") (JStr (u ""))) ;;
    let manim_code :=
      u "# Auto-generated Manim scene (Community Manim)" ++ NEWLINE
      ++ u "# To render: manim -pql " ++ basename out_path
      ++ u " SimpleTitleScene" ++ NEWLINE
      ++ u "from manim import *" ++ NEWLINE
      ++ NEWLINE
      ++ u "class SimpleTitleScene(Scene):" ++ NEWLINE
      ++ u "    def construct(self):" ++ NEWLINE
      ++ u "        title = Text(" ++ json_dumps None title
      ++ u ").scale(1.2).to_edge(UP)" ++ NEWLINE
      ++ u "        subtitle = Text(" ++ json_dumps None subtitle
      ++ u ").scale(0.6).next_to(title, DOWN)" ++ NEWLINE
      ++ u "        self.play(Write(title))" ++ NEWLINE
      ++ u "        self.wait(0.6)" ++ NEWLINE
      ++ u "        self.play(Write(subtitle))" ++ NEWLINE
      ++ u "        self.wait(2)" ++ NEWLINE in
    write_file out_path manim_code ;;;
    io_ret (JStr out_path).

(** What [generate_slide_deck] receives from the table.  A [definition]
    that is not a string has no [split] ([AttributeError]); a falsy
    [related] of any type takes the empty branch everywhere; a truthy
    [related] is followed when it is a list of strings. *)
Definition definition_arg (definition : json) : result str :=
  match definition with
  | JStr d => Ok d
  | _ => Raise AttributeError
  end.

Definition related_arg (related : json) : result (list str) :=
  if negb (truthy related) then Ok []
  else match related with
       | JList items =>
           match all_str items with
           | Ok strs => Ok strs
           | Raise _ => Raise OffSchema
           end
       | _ => Raise OffSchema
       end.

(** The slide preview of step 6, one slide. *)
Definition preview_slide (i : nat) (s : json) : io unit :=
  type <- lift (ty <- subscript s (u "type") ;; to_str ty)%py ;;
  title <- lift (t <- subscript s (u "title") ;; to_str t)%py ;;
  print (NEWLINE ++ u "Slide " ++ decimal i ++ u ": (" ++ type ++ u ") " ++ title) ;;;
  has_bullets <- lift (contains s (u "bullets")) ;;
  (if has_bullets then
     bullets <- lift (b <- subscript s (u "bullets") ;; iterate b)%py ;;
     for_each bullets (fun b =>
       text <- lift (to_str b) ;;
       print (u " -" ++ u " " ++ text))
   else io_ret tt) ;;;
  has_notes <- lift (contains s (u "notes")) ;;
  if has_notes then
    notes <- lift (n <- subscript s (u "notes") ;; as_str n)%py ;;
    print (u "Notes:" ++ u " " ++ slice_upto 200 notes
           ++ (if (len notes >? 200)%Z then u "..." else u ""))
  else io_ret tt.

Definition main (concept_query : str) (audience_level : str) : io unit :=
  (* 1) load the knowledge graph *)
  kg <- json_load_from (u "knowledge_graph.json") ;;
  (* 2) fetch concept info *)
  present <- lift (contains kg concept_query) ;;
  if negb present then
    print (u "❌ Concept '" ++ concept_query
           ++ u "' not found in knowledge_graph.json")
  else
    entry <- lift (subscript kg concept_query) ;;
    definition <- lift (get entry (u "definition")
                            (JStr (u "Definition not available."))) ;;
    entry <- lift (subscript kg concept_query) ;;
    related <- lift (get entry (u "related") (JList [])) ;;
    (* 3) generate slide deck and narration script *)
    now <- utcnow_isoformat ;;
    generated <- lift (d <- definition_arg definition ;;
                       r <- related_arg related ;;
                       generate_slide_deck now concept_query d r audience_level)%py ;;
    let '(deck, script) := generated in
    (* 4) save outputs *)
    json_dump_to (u "slides.json") deck (Some 4%Z) ;;;
    write_file (u "script.txt") script ;;;
    (* 5) minimal Manim file *)
    manim_file <- write_simple_manim deck (u "generated_manim.py") ;;
    (* 6) preview *)
    print (u "✅ Slide deck generated: slides.json") ;;;
    print (u "✅ Narration script saved: script.txt") ;;;
    (if truthy manim_file then
       name <- lift (to_str manim_file) ;;
       print (u "✅ Minimal Manim scene created: " ++ name)
     else io_ret tt) ;;;
    print (NEWLINE ++ u "--- Slide preview ---") ;;;
    slides <- lift (s <- subscript deck (u "slides") ;; iterate s)%py ;;
    for_each (enumerate slides) (fun '(i, s) => preview_slide i s) ;;;
    print (NEWLINE ++ u "--- Full narration (first 600 chars) ---" ++ NEWLINE) ;;;
    print (slice_upto 600 script
           ++ (if (len script >? 600)%Z then u "..." else u "")).

(** [if __name__ == "__main__"] *)
Definition run_as_script : io unit := main (u "Trees") (u "beginner").

End Scripts.

(* ===================================================================== *)
(** ** Reading a generated deck *)
(* ===================================================================== *)

(** [obj.get(key)] as an option: the field of a dict, if it has one. *)
Definition field (key : str) (obj : json) : option json :=
  match obj with
  | JDict items => dict_get items key
  | _ => None
  end.

Definition deck_slides (deck : json) : list json :=
  match field (u "slides") deck with
  | Some (JList slides) => slides
  | _ => []
  end.

Definition slide (i : nat) (deck : json) : json := nth i (deck_slides deck) JNull.

(* ===================================================================== *)
(** ** Vocabulary of the statements *)
(* ===================================================================== *)

(** A word is a non-empty run of characters none of which is whitespace. *)
Definition nospace (w : str) : Prop := Forall (fun c => isspace c = false) w.
Definition is_word (w : str) : Prop := w <> [] /\ nospace w.

(** Appending a suffix to a joined string extends its last word. *)
Fixpoint append_last (x : str) (ws : list str) : list str :=
  match ws with
  | [] => []
  | [w] => [w ++ x]
  | w :: rest => w :: append_last x rest
  end.

Definition blank (s : str) : Prop := Forall (fun c => isspace c = true) s.

(** A text laid out as words, each followed by the whitespace after it. *)
Fixpoint weave (pieces : list (str * str)) : str :=
  match pieces with
  | [] => []
  | (w, sep) :: rest => w ++ sep ++ weave rest
  end.

Fixpoint well_spaced (pieces : list (str * str)) : Prop :=
  match pieces with
  | [] => True
  | (w, sep) :: rest =>
      is_word w /\ blank sep /\ (rest = [] \/ sep <> []) /\ well_spaced rest
  end.

(** A world holding a persisted table, and a decoder that reads it. *)
Definition sample_world : world :=
  World [(u "knowledge_graph.json", u "{}")] [] (u "2024-01-01T00:00:00").
Definition sample_dumps (indent : option Z) (x : json) : str := u "json".
Definition sample_loads (content : str) : option json := Some knowledge_graph.

(** An action that can only print: it returns normally and leaves the
    files and the clock as they were. *)
Definition prints_only (m : io unit) : Prop :=
  forall w, exists out,
    m w = (Ok tt, World (files w) (stdout w ++ out) (clock w)).

(** The two shapes of slide dictionary the generator builds. *)
Definition title_slide_of (title subtitle : str) : json :=
  JDict [ (u "type", JStr (u "title")); (u "title", JStr title);
          (u "subtitle", JStr subtitle); (u "duration_sec", JInt 4) ].

Definition content_slide (kind title : str) (bullets : list str) (notes : str)
    (duration : Z) : json :=
  JDict [ (u "type", JStr kind); (u "title", JStr title);
          (u "bullets", JList (map JStr bullets)); (u "notes", JStr notes);
          (u "duration_sec", JInt duration) ].

(** What [d.get(key, default)] answers, given what the dict holds. *)
Definition or_default (found : option json) (default : json) : json :=
  match found with Some v => v | None => default end.

(** The scene text of [write_simple_manim] (lines 173-186), for a given
    encoder, path, title and subtitle. *)
Definition manim_scene (json_dumps : option Z -> json -> str)
    (out_path : str) (title subtitle : json) : str :=
  u "# Auto-generated Manim scene (Community Manim)" ++ NEWLINE
  ++ u "# To render: manim -pql " ++ basename out_path
  ++ u " SimpleTitleScene" ++ NEWLINE
  ++ u "from manim import *" ++ NEWLINE
  ++ NEWLINE
  ++ u "class SimpleTitleScene(Scene):" ++ NEWLINE
  ++ u "    def construct(self):" ++ NEWLINE
  ++ u "        title = Text(" ++ json_dumps None title
  ++ u ").scale(1.2).to_edge(UP)" ++ NEWLINE
  ++ u "        subtitle = Text(" ++ json_dumps None subtitle
  ++ u ").scale(0.6).next_to(title, DOWN)" ++ NEWLINE
  ++ u "        self.play(Write(title))" ++ NEWLINE
  ++ u "        self.wait(0.6)" ++ NEWLINE
  ++ u "        self.play(Write(subtitle))" ++ NEWLINE
  ++ u "        self.wait(2)" ++ NEWLINE.

(** A decoder that reads a table whose only entry has no field at all. *)
Definition sample_sparse_loads (content : str) : option json :=
  Some (JDict [(u "Heaps", JDict [])]).

(** A decoder that reads a table whose entry has a definition that is not a
    string. *)
Definition sample_untyped_loads (content : str) : option json :=
  Some (JDict [(u "Heaps", JDict [(u "definition", JInt 7)])]).

(** An action that, however it ends, changes no file outside [paths]. *)
Definition touches_only {A} (paths : list str) (m : io A) : Prop :=
  forall w other,
    ~ In other paths ->
    file_get (files (snd (m w))) other = file_get (files w) other.

(** The three files [main] writes. *)
Definition OUTPUT_FILES : list str :=
  [u "slides.json"; u "script.txt"; u "generated_manim.py"].

(* ===================================================================== *)
(** ** Facts about strings *)
(* ===================================================================== *)

Example u_em_dash : u "—" = [8212%N].
Proof. reflexivity. Qed.

Example u_marks : u "❌✅" = [10060%N; 9989%N].
Proof. reflexivity. Qed.

Example u_ascii : u "a b" = [97%N; 32%N; 98%N].
Proof. reflexivity. Qed.

Lemma str_eqb_eq (a b : str) : str_eqb a b = true <-> a = b.
Proof.
  revert b; induction a as [|x a IH]; intros [|y b]; simpl;
    try (split; [discriminate | congruence]); try tauto.
  rewrite andb_true_iff, N.eqb_eq, IH. split.
  - intros [-> ->]; reflexivity.
  - intros E; inversion E; auto.
Qed.

Lemma str_eqb_refl (a : str) : str_eqb a a = true.
Proof. apply str_eqb_eq; reflexivity. Qed.

Lemma str_eqb_neq (a b : str) : str_eqb a b = false <-> a <> b.
Proof.
  rewrite <- str_eqb_eq. destruct (str_eqb a b); split; congruence.
Qed.

Lemma nospace_app (a b : str) : nospace a -> nospace b -> nospace (a ++ b).
Proof. unfold nospace; intros; apply Forall_app; auto. Qed.

Lemma split_scan_words (text : str) :
  forall word, nospace word -> Forall is_word (split_scan word text).
Proof.
  induction text as [|c rest IH]; intros word Hw; simpl.
  - destruct word; constructor; [split; [discriminate | assumption] | constructor].
  - destruct (isspace c) eqn:Ec.
    + destruct word.
      * apply IH; constructor.
      * constructor; [split; [discriminate | assumption] | apply IH; constructor].
    + apply IH, nospace_app; [assumption | repeat constructor; assumption].
Qed.

Lemma split_words (text : str) : Forall is_word (split text).
Proof. apply split_scan_words; constructor. Qed.

Lemma split_scan_run (x : str) :
  nospace x -> forall word rest,
  split_scan word (x ++ rest) = split_scan (word ++ x) rest.
Proof.
  induction 1 as [|c x Hc _ IH]; intros word rest; simpl.
  - rewrite app_nil_r; reflexivity.
  - rewrite Hc, IH, <- app_assoc; reflexivity.
Qed.

Lemma split_scan_word_end (w : str) : is_word w -> split_scan [] w = [w].
Proof.
  intros [Hne Hns].
  rewrite <- (app_nil_r w) at 1.
  rewrite split_scan_run by assumption; simpl.
  destruct w; [contradiction | reflexivity].
Qed.

Lemma split_scan_word_sep (w : str) (c : char) (rest : str) :
  is_word w -> isspace c = true ->
  split_scan [] (w ++ c :: rest) = w :: split_scan [] rest.
Proof.
  intros [Hne Hns] Hc.
  rewrite split_scan_run by assumption; simpl.
  rewrite Hc. destruct w; [contradiction | reflexivity].
Qed.

(** Splitting what was joined with single spaces gives the words back. *)
Lemma split_join (ws : list str) :
  Forall is_word ws -> split (str_join [32%N] ws) = ws.
Proof.
  unfold split. induction 1 as [|w ws Hw Hws IH]; [reflexivity|].
  destruct ws as [|w' ws'].
  - simpl. apply split_scan_word_end; assumption.
  - change (str_join [32%N] (w :: w' :: ws'))
      with (w ++ 32%N :: str_join [32%N] (w' :: ws')).
    rewrite split_scan_word_sep by (assumption || reflexivity).
    rewrite IH; reflexivity.
Qed.

Lemma join_append_last (sep x : str) (ws : list str) :
  ws <> [] -> str_join sep ws ++ x = str_join sep (append_last x ws).
Proof.
  induction ws as [|w ws IH]; [contradiction|]; intros _.
  destruct ws as [|w' ws']; [reflexivity|].
  change (str_join sep (w :: w' :: ws'))
    with (w ++ sep ++ str_join sep (w' :: ws')).
  change (append_last x (w :: w' :: ws'))
    with (w :: append_last x (w' :: ws')).
  rewrite <- !app_assoc, IH by discriminate.
  destruct (append_last x (w' :: ws')) eqn:E; [|reflexivity].
  destruct ws'; discriminate.
Qed.

Lemma append_last_length (x : str) (ws : list str) :
  length (append_last x ws) = length ws.
Proof.
  induction ws as [|w [|w' ws'] IH]; simpl in *; auto.
Qed.

Lemma append_last_words (x : str) (ws : list str) :
  nospace x -> Forall is_word ws -> Forall is_word (append_last x ws).
Proof.
  intros Hx; induction 1 as [|w ws [Hne Hns] Hws IH]; [constructor|].
  destruct ws as [|w' ws'].
  - constructor; [|constructor]. split.
    + destruct w; [contradiction | discriminate].
    + apply nospace_app; assumption.
  - change (append_last x (w :: w' :: ws'))
      with (w :: append_last x (w' :: ws')).
    constructor; [split; assumption | exact IH].
Qed.

Lemma Forall_firstn {A} (P : A -> Prop) (n : nat) (xs : list A) :
  Forall P xs -> Forall P (firstn n xs).
Proof.
  intros H; revert n; induction H; intros [|n]; simpl; constructor; auto.
Qed.

Lemma slice_upto_nat {A} (n : nat) (xs : list A) :
  slice_upto (Z.of_nat n) xs = firstn n xs.
Proof.
  unfold slice_upto.
  destruct (0 <=? Z.of_nat n)%Z eqn:E; [rewrite Nat2Z.id; reflexivity|].
  apply Z.leb_gt in E; lia.
Qed.

Lemma len_gtb_nat {A} (n : nat) (xs : list A) :
  (len xs >? Z.of_nat n)%Z = (n <? length xs).
Proof.
  unfold len. rewrite Z.gtb_ltb.
  destruct (n <? length xs) eqn:E.
  - apply Nat.ltb_lt in E. apply Z.ltb_lt. lia.
  - apply Nat.ltb_ge in E. apply Z.ltb_ge. lia.
Qed.

(** The code's truncation, at a non-negative bound, is the rule of the
    specification. *)
Lemma truncate_text_rule (text : str) (N : nat) :
  truncate_text text (Z.of_nat N) = truncation_rule N text.
Proof.
  unfold truncate_text, truncation_rule.
  rewrite slice_upto_nat, len_gtb_nat. reflexivity.
Qed.

Lemma truncation_rule_short (N : nat) (text : str) :
  length (split text) <= N ->
  truncation_rule N text = str_join [32%N] (split text).
Proof.
  intros H. unfold truncation_rule.
  rewrite firstn_all2 by assumption.
  destruct (N <? length (split text)) eqn:E.
  - apply Nat.ltb_lt in E; lia.
  - apply app_nil_r.
Qed.

Lemma ellipsis_nospace : nospace [46%N; 46%N; 46%N].
Proof. repeat constructor. Qed.

Lemma truncation_rule_idem (N : nat) (text : str) :
  truncation_rule N (truncation_rule N text) = truncation_rule N text.
Proof.
  pose proof (split_words text) as Hw.
  destruct (Nat.leb_spec (length (split text)) N) as [Hle|Hgt].
  - rewrite (truncation_rule_short _ Hle).
    unfold truncation_rule.
    rewrite split_join by assumption.
    rewrite firstn_all2 by assumption.
    destruct (N <? length (split text)) eqn:E;
      [apply Nat.ltb_lt in E; lia | apply app_nil_r].
  - assert (Hout : truncation_rule N text
                   = str_join [32%N] (firstn N (split text))
                     ++ [46%N; 46%N; 46%N]).
    { unfold truncation_rule.
      destruct (N <? length (split text)) eqn:E;
        [reflexivity | apply Nat.ltb_ge in E; lia]. }
    rewrite Hout.
    destruct N as [|n]; [reflexivity|].
    set (fs := firstn (S n) (split text)).
    assert (Hfs : Forall is_word fs).
    { apply Forall_firstn; assumption. }
    assert (Hlen : length fs = S n).
    { unfold fs; rewrite length_firstn; lia. }
    assert (Hne : fs <> []) by (destruct fs; [discriminate Hlen | discriminate]).
    rewrite (join_append_last [32%N] [46%N; 46%N; 46%N] Hne).
    unfold truncation_rule.
    rewrite split_join by (apply append_last_words; [apply ellipsis_nospace | assumption]).
    rewrite firstn_all2 by (rewrite append_last_length; lia).
    rewrite append_last_length, Hlen, Nat.ltb_irrefl.
    apply app_nil_r.
Qed.

(* ===================================================================== *)
(** ** The templates, filled in *)
(* ===================================================================== *)

Lemma format_title_intro (concept : str) :
  format TITLE_INTRO_TEMPLATE [(u "concept", concept)]
  = Ok (u "Welcome — today we'll learn about " ++ concept ++ u ".").
Proof. reflexivity. Qed.

Lemma format_definition_beginner (concept definition : str) :
  format DEFINITION_TEMPLATE_BEGINNER
         [(u "concept", concept); (u "definition", definition)]
  = Ok (concept ++ u " can be understood as: " ++ definition
        ++ u " I'll explain the idea step by step with a simple example.").
Proof. reflexivity. Qed.

Lemma format_definition_advanced (concept definition : str) :
  format DEFINITION_TEMPLATE_ADVANCED
         [(u "concept", concept); (u "definition", definition)]
  = Ok (u "Formally, " ++ concept ++ u " is: " ++ definition
        ++ u " We'll also highlight important properties and implications.").
Proof. reflexivity. Qed.

Lemma format_example (brief point : str) :
  format EXAMPLE_TEMPLATE [(u "example_brief", brief); (u "example_point", point)]
  = Ok (u "Example: Consider " ++ brief
        ++ u ". This demonstrates the main idea: " ++ point ++ u ".").
Proof. reflexivity. Qed.

Lemma format_related (related_list : str) :
  format RELATED_TEMPLATE [(u "related_list", related_list)]
  = Ok (u "Related topics you might want to learn next: " ++ related_list ++ u ".").
Proof. reflexivity. Qed.

(* ===================================================================== *)
(** ** What [split] computes *)
(* ===================================================================== *)

Lemma split_scan_blank (s : str) :
  blank s -> forall rest, split_scan [] (s ++ rest) = split_scan [] rest.
Proof.
  induction 1 as [|c s Hc _ IH]; intros rest; simpl; [reflexivity|].
  rewrite Hc; apply IH.
Qed.

(** Whatever the whitespace around and between them, [split] returns the
    words, and only them. *)
Lemma split_weave (lead : str) (pieces : list (str * str)) :
  blank lead -> well_spaced pieces ->
  split (lead ++ weave pieces) = map fst pieces.
Proof.
  intros Hlead. unfold split. rewrite split_scan_blank by assumption.
  induction pieces as [|[w sep] rest IH]; [reflexivity|].
  intros (Hw & Hb & Hsep & Hrest). simpl.
  destruct sep as [|c sep'].
  - destruct Hsep as [-> | Hne]; [|contradiction].
    simpl. rewrite app_nil_r. apply split_scan_word_end; assumption.
  - inversion Hb as [|? ? Hc Hb']; subst.
    change (w ++ (c :: sep') ++ weave rest) with (w ++ c :: (sep' ++ weave rest)).
    rewrite split_scan_word_sep by assumption.
    rewrite split_scan_blank by assumption.
    rewrite IH by assumption. reflexivity.
Qed.

Ltac laid_out :=
  repeat split; try discriminate; try assumption;
  try (right; discriminate); repeat constructor; assumption.

(** Every text is laid out that way, so [split] is splitting on whitespace:
    the words are the maximal runs of non-whitespace characters, in order. *)
Lemma split_on_whitespace (text : str) :
  exists lead pieces,
    blank lead /\ well_spaced pieces
    /\ text = lead ++ weave pieces
    /\ split text = map fst pieces.
Proof.
  assert (H : exists lead pieces,
             blank lead /\ well_spaced pieces /\ text = lead ++ weave pieces).
  { induction text as [|c rest (lead & pieces & Hlead & Hpieces & ->)].
    - exists [], []. repeat split; constructor.
    - destruct (isspace c) eqn:Hc.
      + exists (c :: lead), pieces.
        repeat split; [constructor|..]; assumption.
      + destruct lead as [|l lead'].
        * destruct pieces as [|[w sep] rest].
          -- exists [], [([c], [])]. simpl. laid_out.
          -- destruct Hpieces as ((Hne & Hns) & Hb & Hsep & Hrest).
             exists [], ((c :: w, sep) :: rest). simpl. laid_out.
        * exists [], (([c], l :: lead') :: pieces). simpl. laid_out. }
  destruct H as (lead & pieces & Hlead & Hpieces & ->).
  exists lead, pieces. repeat split; try assumption.
  apply split_weave; assumption.
Qed.

Example split_mixed_whitespace :
  split ([9%N] ++ u "a" ++ [32%N; 10%N] ++ u "b," ++ [160%N] ++ u "c" ++ [32%N])
  = [u "a"; u "b,"; u "c"].
Proof. reflexivity. Qed.

Example truncate_text_negative_bound :
  truncate_text (u "a b c") (-1) = u "a b...".
Proof. reflexivity. Qed.

(* ===================================================================== *)
(** ** Properties of the generator *)
(* ===================================================================== *)

(** Runs the generator symbolically: one case per branch of the code (empty
    or non-empty [related], beginner or any other level). *)
Ltac run_generator related audience_level :=
  destruct related as [|related_0 related_rest];
  destruct (str_eqb audience_level (u "beginner")) eqn:Elevel;
  unfold generate_slide_deck; rewrite ?Elevel.

Ltac returned := split; [reflexivity|].

(** C1: for every input, [generate_slide_deck] returns a deck whose [slides]
    list has exactly five entries, of types title, definition, example,
    related, summary in that order, whether [related] is empty or not. *)
Theorem generate_slide_deck_five_slides
    (utcnow concept_name definition : str) (related : list str)
    (audience_level : str) :
  exists deck script,
    generate_slide_deck utcnow concept_name definition related audience_level
    = Ok (deck, script)
    /\ length (deck_slides deck) = 5
    /\ map (field (u "type")) (deck_slides deck)
       = [ Some (JStr (u "title")); Some (JStr (u "definition"));
           Some (JStr (u "example")); Some (JStr (u "related"));
           Some (JStr (u "summary")) ].
Proof.
  run_generator related audience_level;
    do 2 eexists; returned; split; reflexivity.
Qed.

(** C2: two calls with the same four inputs, at any two readings of the
    clock, return the same slides, the same [concept] and [audience_level]
    fields and the same narration; the decks differ in [generated_at]
    only. *)
Theorem generate_slide_deck_deterministic
    (utcnow1 utcnow2 concept_name definition : str) (related : list str)
    (audience_level : str) :
  exists slides script,
    generate_slide_deck utcnow1 concept_name definition related audience_level
    = Ok (JDict [ (u "concept", JStr concept_name);
                  (u "generated_at", JStr (utcnow1 ++ u "Z"));
                  (u "audience_level", JStr audience_level);
                  (u "slides", JList slides) ], script)
    /\
    generate_slide_deck utcnow2 concept_name definition related audience_level
    = Ok (JDict [ (u "concept", JStr concept_name);
                  (u "generated_at", JStr (utcnow2 ++ u "Z"));
                  (u "audience_level", JStr audience_level);
                  (u "slides", JList slides) ], script).
Proof.
  run_generator related audience_level;
    do 2 eexists; split; reflexivity.
Qed.

(** C3: [split] cuts the text at its whitespace, the words being the runs of
    other characters between; at every bound [N], [truncate_text] keeps the
    first [N] words, joined by single spaces, and appends the ellipsis
    exactly when the text has more than [N] words; the generator calls it
    with 15 for the subtitle, 20 for the definition bullet, 20 for the
    summary and 6 for the example title. *)
Theorem truncate_text_rule_and_call_sites :
  (forall text : str,
      exists lead pieces,
        blank lead /\ well_spaced pieces
        /\ text = lead ++ weave pieces
        /\ split text = map fst pieces)
  /\
  (forall (text : str) (N : nat),
      truncate_text text (Z.of_nat N)
      = str_join (u " ") (firstn N (split text))
        ++ (if N <? length (split text) then u "..." else u ""))
  /\
  (forall (utcnow concept_name definition : str) (related : list str)
          (audience_level : str),
      exists deck script,
        generate_slide_deck utcnow concept_name definition related audience_level
        = Ok (deck, script)
        /\ field (u "subtitle") (slide 0 deck)
           = Some (JStr (truncation_rule 15 definition))
        /\ field (u "bullets") (slide 1 deck)
           = Some (JList [JStr (truncation_rule 20 definition)])
        /\ field (u "bullets") (slide 4 deck)
           = Some (JList [JStr (truncation_rule 20 definition)])
        /\ field (u "notes") (slide 4 deck)
           = Some (JStr (u "In summary, " ++ concept_name ++ u ": "
                         ++ truncation_rule 20 definition))
        /\ field (u "title") (slide 2 deck)
           = Some (JStr (u "Simple example: "
                         ++ truncation_rule 6 (example_brief related)))).
Proof.
  split; [exact split_on_whitespace | split].
  - intros text N. apply truncate_text_rule.
  - intros utcnow concept_name definition related audience_level.
    rewrite <- (truncate_text_rule definition 15),
            <- (truncate_text_rule definition 20),
            <- (truncate_text_rule (example_brief related) 6).
    run_generator related audience_level;
      do 2 eexists; returned; repeat split; reflexivity.
Qed.

(** C4, as stated, fails: a text of at most [N] words is not returned
    unchanged when its words are separated by more than one space. *)
Lemma truncate_text_normalises_spacing :
  length (split (u "a  b")) <= 2
  /\ truncate_text (u "a  b") 2 = u "a b"
  /\ truncate_text (u "a  b") 2 <> u "a  b".
Proof.
  split; [vm_compute; lia|]. split; [reflexivity|].
  vm_compute; discriminate.
Qed.

(** C4, amended: truncating the output of [truncate_text] again with the
    same bound returns that output; a text of at most [N] words gets no
    ellipsis and comes back as its words joined by single spaces, which is
    the text itself when it is already written that way. *)
Theorem truncate_text_idempotent (text : str) (N : nat) :
  truncate_text (truncate_text text (Z.of_nat N)) (Z.of_nat N)
  = truncate_text text (Z.of_nat N)
  /\ (length (split text) <= N ->
      truncate_text text (Z.of_nat N) = str_join (u " ") (split text))
  /\ (forall words : list str,
        Forall is_word words -> length words <= N ->
        truncate_text (str_join (u " ") words) (Z.of_nat N)
        = str_join (u " ") words).
Proof.
  rewrite !truncate_text_rule. split; [apply truncation_rule_idem|]. split.
  - apply truncation_rule_short.
  - intros words Hwords Hlen. rewrite truncate_text_rule.
    change (u " ") with [32%N].
    rewrite truncation_rule_short; rewrite split_join; auto.
Qed.

Lemma truncate_text_idempotent_witness :
  truncate_text (truncate_text (u "one  two three") 2) 2
  = truncate_text (u "one  two three") 2
  /\ truncate_text (u " a  b ") 2 = u "a b"
  /\ truncate_text (u "a b") 2 = u "a b".
Proof.
  destruct (truncate_text_idempotent (u "one  two three") 2) as (Hidem & _ & _).
  destruct (truncate_text_idempotent (u " a  b ") 2) as (_ & Hshort & Hsame).
  split; [exact Hidem|]. split.
  - apply Hshort. vm_compute. lia.
  - apply (Hsame [u "a"; u "b"]).
    + repeat constructor; discriminate.
    + simpl. lia.
Defined.

(** C5: with [related] empty the example slide still has (three) bullets
    and non-empty notes, from the placeholder branch; the related slide has
    exactly one bullet, the placeholder, and its notes are one fixed
    sentence saying that no related topics are available. *)
Theorem generate_slide_deck_no_related
    (utcnow concept_name definition audience_level : str) :
  exists deck script example_notes,
    generate_slide_deck utcnow concept_name definition [] audience_level
    = Ok (deck, script)
    /\ field (u "bullets") (slide 2 deck)
       = Some (JList [ JStr (u "Set up the scenario");
                       JStr (u "Apply the core idea of " ++ concept_name);
                       JStr (u "Observe the result / takeaway") ])
    /\ field (u "notes") (slide 2 deck) = Some (JStr example_notes)
    /\ example_notes
       = u "Example: Consider a simple conceptual scenario. "
         ++ u "This demonstrates the main idea: the core intuition behind "
         ++ concept_name ++ u "."
    /\ example_notes <> []
    /\ field (u "bullets") (slide 3 deck)
       = Some (JList [JStr (u "Further reading not available")])
    /\ field (u "notes") (slide 3 deck)
       = Some (JStr (u "Related topics you might want to learn next: "
                     ++ u "No related topics available.."))
    /\ field (u "type") (slide 2 deck) = Some (JStr (u "example"))
    /\ field (u "type") (slide 3 deck) = Some (JStr (u "related")).
Proof.
  destruct (str_eqb audience_level (u "beginner")) eqn:Elevel;
    unfold generate_slide_deck; rewrite ?Elevel;
    do 3 eexists; returned;
    (split; [reflexivity|]); (split; [reflexivity|]); (split; [reflexivity|]);
    (split; [discriminate|]); repeat split; reflexivity.
Qed.

(** C6: the narration is, separated by blank lines: the greeting built from
    the concept name, the notes of the definition, example and related
    slides in that order, and the summary sentence.  The title slide has no
    notes, and the greeting is not its subtitle. *)
Theorem generate_slide_deck_narration
    (utcnow concept_name definition : str) (related : list str)
    (audience_level : str) :
  exists deck script definition_notes example_notes related_notes,
    generate_slide_deck utcnow concept_name definition related audience_level
    = Ok (deck, script)
    /\ field (u "notes") (slide 0 deck) = None
    /\ field (u "notes") (slide 1 deck) = Some (JStr definition_notes)
    /\ field (u "notes") (slide 2 deck) = Some (JStr example_notes)
    /\ field (u "notes") (slide 3 deck) = Some (JStr related_notes)
    /\ field (u "notes") (slide 4 deck)
       = Some (JStr (u "In summary, " ++ concept_name ++ u ": "
                     ++ truncate_text definition 20))
    /\ script
       = (u "Welcome — today we'll learn about " ++ concept_name ++ u ".")
         ++ (NEWLINE ++ NEWLINE) ++ definition_notes
         ++ (NEWLINE ++ NEWLINE) ++ example_notes
         ++ (NEWLINE ++ NEWLINE) ++ related_notes
         ++ (NEWLINE ++ NEWLINE)
         ++ (u "In summary, " ++ concept_name ++ u ": "
             ++ truncate_text definition 20).
Proof.
  run_generator related audience_level;
    do 5 eexists; returned; repeat (split; [reflexivity|]);
    cbn; rewrite <- ?app_assoc; reflexivity.
Qed.

(* ===================================================================== *)
(** ** Properties of the lookup and of the orchestration *)
(* ===================================================================== *)

Lemma dict_get_in (d : list (str * json)) (k : str) :
  dict_get d k <> None <-> In k (map fst d).
Proof.
  induction d as [|[k' v] d IH]; simpl; [tauto|].
  destruct (str_eqb k' k) eqn:E.
  - apply str_eqb_eq in E. split; [auto | discriminate].
  - apply str_eqb_neq in E. rewrite IH. tauto.
Qed.

(** C7: the lookup matches keys exactly.  A name that is a key of the table
    gives the stored definition and related list, a name that is not gives
    [(None, [])], and neither outcome is an exception; a key found is a key
    equal to the name, character by character, so that ["trees"] does not
    find ["Trees"]. *)
Theorem get_concept_info_exact (kg : list (str * json)) (name : str) :
  (forall entry definition related,
      dict_get kg name = Some (JDict entry) ->
      dict_get entry (u "definition") = Some definition ->
      dict_get entry (u "related") = Some related ->
      get_concept_info (JDict kg) name = Ok (definition, related))
  /\ (dict_get kg name = None ->
      get_concept_info (JDict kg) name = Ok NOT_FOUND)
  /\ (dict_get kg name = None <-> ~ In name (map fst kg))
  /\ get_concept_info knowledge_graph (u "Trees")
     = Ok (JStr (u "A hierarchical data structure with nodes."),
           JList [JStr (u "Binary Tree"); JStr (u "Graphs")])
  /\ get_concept_info knowledge_graph (u "trees") = Ok NOT_FOUND.
Proof.
  split; [|split; [|split; [|split; reflexivity]]].
  - intros entry definition related Hentry Hdef Hrel.
    unfold get_concept_info, contains, dict_has, subscript, bind.
    rewrite Hentry, Hdef, Hrel. reflexivity.
  - intros Habsent.
    unfold get_concept_info, contains, dict_has, bind.
    rewrite Habsent. reflexivity.
  - rewrite <- dict_get_in. destruct (dict_get kg name) as [v|].
    + split; [discriminate | intros H; exfalso; apply H; discriminate].
    + split; [intros _ H; apply H; reflexivity | reflexivity].
Qed.

Lemma get_concept_info_exact_witness :
  get_concept_info knowledge_graph (u "Graphs")
  = Ok (JStr (u "A collection of nodes connected by edges."),
        JList [JStr (u "Trees"); JStr (u "Graph Traversal")])
  /\ get_concept_info knowledge_graph (u "Quantum Foo") = Ok NOT_FOUND.
Proof.
  split.
  - refine (proj1 (get_concept_info_exact _ (u "Graphs")) _ _ _ _ _ _);
      reflexivity.
  - refine (proj1 (proj2 (get_concept_info_exact _ (u "Quantum Foo"))) _);
      reflexivity.
Defined.

Section MainProperties.

Variable json_dumps : option Z -> json -> str.
Variable json_loads : str -> option json.

(** C8: when the concept is not a key of the loaded table, [main] prints
    the not-found message and returns without an exception; the files are
    left as they were, so no [slides.json], [script.txt] or
    [generated_manim.py] is written. *)
Theorem main_not_found (w : world) (concept_query audience_level : str)
    (content : str) (kg : list (str * json)) :
  file_get (files w) (u "knowledge_graph.json") = Some content ->
  json_loads content = Some (JDict kg) ->
  dict_get kg concept_query = None ->
  main json_dumps json_loads concept_query audience_level w
  = (Ok tt,
     World (files w)
           (stdout w ++ (u "❌ Concept '" ++ concept_query
                         ++ u "' not found in knowledge_graph.json")
            ++ NEWLINE)
           (clock w)).
Proof.
  intros Hfile Hload Habsent.
  unfold main, json_load_from, read_file, io_bind.
  rewrite Hfile, Hload.
  unfold io_ret, lift, contains, dict_has.
  rewrite Habsent. reflexivity.
Qed.

End MainProperties.

(** A run of [main] on a concept of the table does write the three files. *)
Example main_found_writes_files :
  let '(r, w') :=
    main sample_dumps sample_loads (u "Trees") (u "beginner") sample_world in
  r = Ok tt
  /\ map fst (files w')
     = [u "knowledge_graph.json"; u "slides.json"; u "script.txt";
        u "generated_manim.py"].
Proof. vm_compute. split; reflexivity. Qed.

Lemma main_not_found_witness :
  main sample_dumps sample_loads (u "Quantum Foo") (u "beginner") sample_world
  = (Ok tt,
     World (files sample_world)
           (stdout sample_world
            ++ (u "❌ Concept '" ++ u "Quantum Foo"
                ++ u "' not found in knowledge_graph.json")
            ++ NEWLINE)
           (clock sample_world)).
Proof.
  exact (main_not_found sample_dumps sample_loads sample_world
           (u "Quantum Foo") (u "beginner")
           (content := u "{}")
           (kg := match knowledge_graph with JDict kg => kg | _ => [] end)
           eq_refl eq_refl eq_refl).
Defined.

(** C9: with [related] non-empty the example slide is built from
    [related[0]] and from no other element: its title is the fixed label
    followed by the 6-word truncation of the example string, its bullets
    are the three fixed phrases, its notes are the example template filled
    in; for "Trees" with related ["Binary Tree", "Graphs"] the slide names
    "Binary Tree". *)
Theorem generate_slide_deck_example_from_first
    (utcnow concept_name definition : str)
    (related_0 : str) (related_rest : list str) (audience_level : str) :
  (exists deck script,
      generate_slide_deck utcnow concept_name definition
                          (related_0 :: related_rest) audience_level
      = Ok (deck, script)
      /\ field (u "type") (slide 2 deck) = Some (JStr (u "example"))
      /\ field (u "title") (slide 2 deck)
         = Some (JStr (u "Simple example: "
                       ++ truncate_text (u "a simple case involving " ++ related_0) 6))
      /\ field (u "bullets") (slide 2 deck)
         = Some (JList [ JStr (u "Set up the scenario");
                         JStr (u "Apply the core idea of " ++ concept_name);
                         JStr (u "Observe the result / takeaway") ])
      /\ field (u "notes") (slide 2 deck)
         = Some (JStr (u "Example: Consider "
                       ++ (u "a simple case involving " ++ related_0)
                       ++ u ". This demonstrates the main idea: "
                       ++ (u "how " ++ concept_name ++ u " uses " ++ related_0
                           ++ u " in structure/operation")
                       ++ u "."))
      /\ field (u "duration_sec") (slide 2 deck) = Some (JInt 12))
  /\
  (exists deck script,
      generate_slide_deck utcnow (u "Trees")
                          (u "A hierarchical data structure with nodes.")
                          [u "Binary Tree"; u "Graphs"] (u "beginner")
      = Ok (deck, script)
      /\ field (u "subtitle") (slide 0 deck)
         = Some (JStr (u "A hierarchical data structure with nodes."))
      /\ field (u "title") (slide 2 deck)
         = Some (JStr (u "Simple example: a simple case involving Binary Tree"))
      /\ field (u "notes") (slide 2 deck)
         = Some (JStr (u "Example: Consider a simple case involving Binary Tree. "
                       ++ u "This demonstrates the main idea: "
                       ++ u "how Trees uses Binary Tree in structure/operation."))
      /\ field (u "bullets") (slide 3 deck)
         = Some (JList [JStr (u "Binary Tree"); JStr (u "Graphs")])).
Proof.
  split.
  - destruct (str_eqb audience_level (u "beginner")) eqn:Elevel;
      unfold generate_slide_deck; rewrite ?Elevel;
      do 2 eexists; returned; repeat split; reflexivity.
  - do 2 eexists; returned; repeat split; reflexivity.
Qed.

(** C10: the audience level is not validated.  Any level other than the
    exact string "beginner" selects the advanced wording, and the call
    returns normally with the level recorded as given. *)
Theorem generate_slide_deck_other_level_is_advanced
    (utcnow concept_name definition : str) (related : list str)
    (audience_level : str) :
  audience_level <> u "beginner" ->
  exists deck script,
    generate_slide_deck utcnow concept_name definition related audience_level
    = Ok (deck, script)
    /\ field (u "notes") (slide 1 deck)
       = Some (JStr (u "Formally, " ++ concept_name ++ u " is: " ++ definition
                     ++ u " We'll also highlight important properties and implications."))
    /\ field (u "audience_level") deck = Some (JStr audience_level).
Proof.
  intros Hlevel. apply str_eqb_neq in Hlevel.
  destruct related as [|related_0 related_rest];
    unfold generate_slide_deck; rewrite Hlevel;
    do 2 eexists; returned; split; reflexivity.
Qed.

Lemma generate_slide_deck_other_level_witness :
  exists deck script,
    generate_slide_deck (u "2024-01-01T00:00:00") (u "Trees")
                        (u "A hierarchical data structure with nodes.")
                        [u "Binary Tree"; u "Graphs"] (u "Beginner")
    = Ok (deck, script)
    /\ field (u "notes") (slide 1 deck)
       = Some (JStr (u "Formally, Trees is: A hierarchical data structure with nodes."
                     ++ u " We'll also highlight important properties and implications."))
    /\ field (u "audience_level") deck = Some (JStr (u "Beginner")).
Proof.
  apply (generate_slide_deck_other_level_is_advanced
           (u "2024-01-01T00:00:00") (u "Trees")
           (u "A hierarchical data structure with nodes.")
           [u "Binary Tree"; u "Graphs"] (audience_level := u "Beginner")).
  vm_compute. discriminate.
Defined.


(* ===================================================================== *)
(** ** More on truncation and joining *)
(* ===================================================================== *)

Lemma split_blank_iff (text : str) : split text = [] <-> blank text.
Proof.
  split.
  - intros Hs.
    destruct (split_on_whitespace text) as (lead & pieces & Hlead & _ & -> & Hsplit).
    rewrite Hs in Hsplit. destruct pieces; [|discriminate].
    simpl. rewrite app_nil_r. assumption.
  - intros Hb. unfold split. rewrite <- (app_nil_r text).
    rewrite split_scan_blank by assumption. reflexivity.
Qed.

Lemma slice_upto_words (stop : Z) (ws : list str) :
  Forall is_word ws -> Forall is_word (slice_upto stop ws).
Proof.
  intros H. unfold slice_upto.
  destruct (0 <=? stop)%Z; apply Forall_firstn; assumption.
Qed.

Lemma join_words_nonempty (ws : list str) :
  Forall is_word ws -> ws <> [] -> str_join [32%N] ws <> [].
Proof.
  intros H Hne. destruct H as [|w ws [Hw _] _]; [contradiction|].
  destruct w; [contradiction|]. destruct ws; discriminate.
Qed.

(** A joined list of words, with or without a suffix stuck to its last
    word, splits and joins back to itself. *)
Lemma join_split_suffix (ws : list str) (x : str) :
  Forall is_word ws -> nospace x ->
  str_join [32%N] (split (str_join [32%N] ws ++ x)) = str_join [32%N] ws ++ x.
Proof.
  intros Hws Hx.
  destruct x as [|c x'].
  - rewrite app_nil_r, split_join by assumption. reflexivity.
  - destruct ws as [|w ws'].
    + simpl. unfold split.
      rewrite split_scan_word_end by (split; [discriminate | assumption]).
      reflexivity.
    + rewrite join_append_last by discriminate.
      rewrite split_join by (apply append_last_words; assumption).
      reflexivity.
Qed.

(** X1: whatever the text and the bound, negative bounds included, the
    result of [truncate_text] is written with single spaces only: splitting
    it and joining the words with one space gives it back, so it has no
    leading, trailing, repeated or non-space whitespace. *)
Theorem truncate_text_normal_form (text : str) (max_words : Z) :
  str_join (u " ") (split (truncate_text text max_words))
  = truncate_text text max_words.
Proof.
  unfold truncate_text. change (u " ") with [32%N].
  apply join_split_suffix.
  - apply slice_upto_words, split_words.
  - destruct (len (split text) >? max_words)%Z;
      [apply ellipsis_nospace | constructor].
Qed.

(** X2: with a bound of at least one word the result has as many words as
    the text, up to the bound (the ellipsis is stuck to the last word kept
    and adds none); with the bound 0 it has at most one, the ellipsis. *)
Theorem truncate_text_word_count (text : str) (N : nat) :
  (N <> 0 ->
   length (split (truncate_text text (Z.of_nat N)))
   = Nat.min N (length (split text)))
  /\ length (split (truncate_text text 0)) <= 1.
Proof.
  pose proof (split_words text) as Hw. split.
  - intros HN. rewrite truncate_text_rule.
    destruct (Nat.leb_spec (length (split text)) N) as [Hle|Hgt].
    + rewrite truncation_rule_short, split_join by assumption. lia.
    + unfold truncation_rule.
      destruct (N <? length (split text)) eqn:E;
        [|apply Nat.ltb_ge in E; lia].
      assert (Hlen : length (firstn N (split text)) = N)
        by (rewrite length_firstn; lia).
      rewrite join_append_last
        by (intros Hnil; rewrite Hnil in Hlen; simpl in Hlen; lia).
      rewrite split_join
        by (apply append_last_words;
            [apply ellipsis_nospace | apply Forall_firstn; assumption]).
      rewrite append_last_length, Hlen. lia.
  - change 0%Z with (Z.of_nat 0). rewrite truncate_text_rule.
    unfold truncation_rule. simpl firstn. simpl str_join.
    destruct (0 <? length (split text)); simpl; lia.
Qed.

Lemma truncate_text_word_count_witness :
  length (split (truncate_text (u "one two  three four") 3)) = 3
  /\ length (split (truncate_text (u "one two") 3)) = 2.
Proof.
  split.
  - refine (proj1 (truncate_text_word_count (u "one two  three four") 3) _).
    discriminate.
  - refine (proj1 (truncate_text_word_count (u "one two") 3) _).
    discriminate.
Defined.

(** X3: at a bound that is not negative, the result is empty exactly when
    the text has no word, that is when it is empty or all whitespace. *)
Theorem truncate_text_empty_iff (text : str) (max_words : Z) :
  (0 <= max_words)%Z ->
  (truncate_text text max_words = [] <-> blank text).
Proof.
  intros Hpos. rewrite <- split_blank_iff.
  rewrite <- (Z2Nat.id max_words) by assumption.
  rewrite truncate_text_rule. unfold truncation_rule.
  pose proof (split_words text) as Hw.
  destruct (split text) as [|w ws] eqn:Es.
  - simpl. rewrite firstn_nil. split; reflexivity.
  - split; [|discriminate]. intros Hout. exfalso.
    destruct (Z.to_nat max_words) as [|n]; [discriminate Hout|].
    apply app_eq_nil in Hout. destruct Hout as [Hjoin _].
    revert Hjoin. apply join_words_nonempty; [|discriminate].
    apply Forall_firstn; assumption.
Qed.

Lemma truncate_text_empty_iff_witness :
  truncate_text ([32%N; 9%N; 10%N]) 15 = [].
Proof.
  refine (proj2 (truncate_text_empty_iff [32%N; 9%N; 10%N] (max_words := 15) _) _).
  - discriminate.
  - repeat constructor.
Defined.

(** X4: a negative bound counts from the end, as Python slices do: it drops
    that many words from the end of a text that has words, and marks the
    cut; on a text without words it returns the bare ellipsis. *)
Theorem truncate_text_below_zero (text : str) (max_words : Z) :
  (max_words < 0)%Z ->
  (split text = [] -> truncate_text text max_words = u "...")
  /\ (split text <> [] ->
      truncate_text text max_words
      = truncate_text text (Z.max 0 (len (split text) + max_words))).
Proof.
  intros Hneg. split.
  - intros Hs. unfold truncate_text. rewrite Hs. unfold slice_upto, len.
    destruct (0 <=? max_words)%Z eqn:E; [apply Z.leb_le in E; lia|].
    simpl firstn. simpl str_join.
    destruct (Z.of_nat (length (@nil str)) >? max_words)%Z eqn:G;
      [reflexivity|].
    rewrite Z.gtb_ltb in G. apply Z.ltb_ge in G. simpl in G. lia.
  - intros Hs.
    set (m := length (split text) - Z.to_nat (- max_words)).
    assert (Hm : Z.max 0 (len (split text) + max_words) = Z.of_nat m)
      by (unfold len, m; lia).
    assert (Hlt : m < length (split text)).
    { assert (length (split text) <> 0)
        by (destruct (split text); [contradiction | discriminate]).
      unfold m. lia. }
    rewrite Hm, truncate_text_rule. unfold truncate_text, truncation_rule.
    unfold slice_upto.
    destruct (0 <=? max_words)%Z eqn:E; [apply Z.leb_le in E; lia|].
    fold m. apply Nat.ltb_lt in Hlt. rewrite Hlt.
    destruct (len (split text) >? max_words)%Z eqn:G; [reflexivity|].
    rewrite Z.gtb_ltb in G. apply Z.ltb_ge in G. unfold len in G. lia.
Qed.

Lemma truncate_text_below_zero_witness :
  truncate_text (u "a b c d") (-1) = truncate_text (u "a b c d") 3
  /\ truncate_text (u "  ") (-2) = u "...".
Proof.
  split.
  - refine (proj2 (truncate_text_below_zero (u "a b c d") (max_words := -1) _) _).
    + reflexivity.
    + discriminate.
  - refine (proj1 (truncate_text_below_zero (u "  ") (max_words := -2) _) _);
      reflexivity.
Defined.

Lemma filter_nonempty_all (lst : list str) :
  Forall (fun x => x <> []) lst ->
  filter (fun x : str => match x with [] => false | _ => true end) lst = lst.
Proof.
  induction 1 as [|x lst Hx _ IH]; [reflexivity|].
  simpl. destruct x; [contradiction|]. rewrite IH. reflexivity.
Qed.

(** X5: [safe_join] never lets an empty entry through: an empty string
    anywhere in the list changes nothing, a list of non-empty strings is
    joined as it is, and a list of empty strings only gives the empty
    string. *)
Theorem safe_join_skips_empty (before after lst : list str) :
  safe_join (before ++ [] :: after) = safe_join (before ++ after)
  /\ (Forall (fun x => x <> []) lst -> safe_join lst = str_join (u ", ") lst)
  /\ (Forall (fun x => x = []) lst -> safe_join lst = []).
Proof.
  unfold safe_join. split; [|split].
  - rewrite !filter_app. reflexivity.
  - intros H. rewrite filter_nonempty_all by assumption. reflexivity.
  - intros H. induction H as [|x lst -> _ IH]; [reflexivity | exact IH].
Qed.

Lemma safe_join_skips_empty_witness :
  safe_join [u "Arrays"; u "Trees"] = u "Arrays, Trees"
  /\ safe_join [u ""; u ""] = [].
Proof.
  split.
  - refine (proj1 (proj2 (safe_join_skips_empty [] [] [u "Arrays"; u "Trees"])) _).
    repeat constructor; discriminate.
  - refine (proj2 (proj2 (safe_join_skips_empty [] [] [u ""; u ""])) _).
    repeat constructor.
Defined.

(* ===================================================================== *)
(** ** More on the generator *)
(* ===================================================================== *)

(** X6: the slide titles and durations do not depend on the definition, the
    related topics or the level: the durations are always 4, 10, 12, 6 and 6
    seconds, and the titles of the title, definition, related and summary
    slides are fixed wording around the concept name. *)
Theorem generate_slide_deck_titles_and_durations
    (utcnow concept_name definition : str) (related : list str)
    (audience_level : str) :
  exists deck script,
    generate_slide_deck utcnow concept_name definition related audience_level
    = Ok (deck, script)
    /\ map (field (u "duration_sec")) (deck_slides deck)
       = [ Some (JInt 4); Some (JInt 10); Some (JInt 12); Some (JInt 6);
           Some (JInt 6) ]
    /\ field (u "title") (slide 0 deck)
       = Some (JStr (u "Introduction to " ++ concept_name))
    /\ field (u "title") (slide 1 deck)
       = Some (JStr (u "What is " ++ concept_name ++ u "?"))
    /\ field (u "title") (slide 3 deck)
       = Some (JStr (u "Related topics & next steps"))
    /\ field (u "title") (slide 4 deck) = Some (JStr (u "Summary")).
Proof.
  run_generator related audience_level;
    do 2 eexists; returned; repeat split; reflexivity.
Qed.

(** X7: with [related] non-empty the related slide lists the topics as they
    were given, empty names included, while its notes name them through
    [safe_join], which leaves the empty names out. *)
Theorem generate_slide_deck_related_listed
    (utcnow concept_name definition : str)
    (related_0 : str) (related_rest : list str) (audience_level : str) :
  exists deck script,
    generate_slide_deck utcnow concept_name definition
                        (related_0 :: related_rest) audience_level
    = Ok (deck, script)
    /\ field (u "type") (slide 3 deck) = Some (JStr (u "related"))
    /\ field (u "bullets") (slide 3 deck)
       = Some (JList (map JStr (related_0 :: related_rest)))
    /\ field (u "notes") (slide 3 deck)
       = Some (JStr (u "Related topics you might want to learn next: "
                     ++ safe_join (related_0 :: related_rest) ++ u ".")).
Proof.
  destruct (str_eqb audience_level (u "beginner")) eqn:Elevel;
    unfold generate_slide_deck; rewrite ?Elevel;
    do 2 eexists; returned; repeat split; reflexivity.
Qed.

(** X8: at the level "beginner" the definition slide's notes are the
    beginner wording around the concept name and the whole definition, not
    its truncation, while its bullet is the definition cut at 20 words. *)
Theorem generate_slide_deck_beginner
    (utcnow concept_name definition : str) (related : list str) :
  exists deck script,
    generate_slide_deck utcnow concept_name definition related (u "beginner")
    = Ok (deck, script)
    /\ field (u "type") (slide 1 deck) = Some (JStr (u "definition"))
    /\ field (u "notes") (slide 1 deck)
       = Some (JStr (concept_name ++ u " can be understood as: " ++ definition
                     ++ u " I'll explain the idea step by step with a simple example."))
    /\ field (u "bullets") (slide 1 deck)
       = Some (JList [JStr (truncate_text definition 20)])
    /\ field (u "audience_level") deck = Some (JStr (u "beginner")).
Proof.
  destruct related as [|related_0 related_rest];
    do 2 eexists; returned; repeat split; reflexivity.
Qed.

(** The deck the generator returns, slide by slide. *)
Lemma generate_slide_deck_shape
    (utcnow concept_name definition : str) (related : list str)
    (audience_level : str) :
  exists script definition_notes example_title example_notes related_notes,
    generate_slide_deck utcnow concept_name definition related audience_level
    = Ok (JDict
            [ (u "concept", JStr concept_name);
              (u "generated_at", JStr (utcnow ++ u "Z"));
              (u "audience_level", JStr audience_level);
              (u "slides", JList
                 [ title_slide_of (u "Introduction to " ++ concept_name)
                                  (truncate_text definition 15);
                   content_slide (u "definition")
                     (u "What is " ++ concept_name ++ u "?")
                     [truncate_text definition 20] definition_notes 10;
                   content_slide (u "example") example_title
                     [ u "Set up the scenario";
                       u "Apply the core idea of " ++ concept_name;
                       u "Observe the result / takeaway" ]
                     example_notes 12;
                   content_slide (u "related") (u "Related topics & next steps")
                     match related with
                     | [] => [u "Further reading not available"]
                     | _ :: _ => related
                     end
                     related_notes 6;
                   content_slide (u "summary") (u "Summary")
                     [truncate_text definition 20]
                     (u "In summary, " ++ concept_name ++ u ": "
                      ++ truncate_text definition 20) 6 ]) ],
          script).
Proof.
  run_generator related audience_level; do 5 eexists; reflexivity.
Qed.

(* ===================================================================== *)
(** ** Running the scripts *)
(* ===================================================================== *)

Lemma file_get_put_same (fs : list (str * str)) (path content : str) :
  file_get (file_put fs path content) path = Some content.
Proof.
  induction fs as [|[p c] fs IH]; simpl.
  - rewrite str_eqb_refl. reflexivity.
  - destruct (str_eqb p path) eqn:E; simpl; rewrite E; [reflexivity | exact IH].
Qed.

Lemma file_get_put_other (fs : list (str * str)) (path content other : str) :
  other <> path ->
  file_get (file_put fs path content) other = file_get fs other.
Proof.
  intros Hne. induction fs as [|[p c] fs IH]; simpl.
  - destruct (str_eqb path other) eqn:E; [|reflexivity].
    apply str_eqb_eq in E. congruence.
  - destruct (str_eqb p path) eqn:E; simpl.
    + apply str_eqb_eq in E. subst p.
      destruct (str_eqb path other) eqn:E'; [|reflexivity].
      apply str_eqb_eq in E'. congruence.
    + destruct (str_eqb p other); [reflexivity | exact IH].
Qed.

Lemma io_bind_run {A B} (m : io A) (k : A -> io B) (w w' : world) (a : A) :
  m w = (Ok a, w') -> io_bind m k w = k a w'.
Proof. intros H. unfold io_bind. rewrite H. reflexivity. Qed.

Lemma io_bind_raise {A B} (m : io A) (k : A -> io B) (w w' : world) (e : exn) :
  m w = (Raise e, w') -> io_bind m k w = (Raise e, w').
Proof. intros H. unfold io_bind. rewrite H. reflexivity. Qed.

Lemma prints_only_ret : prints_only (io_ret tt).
Proof.
  intros w. exists []. unfold io_ret. rewrite app_nil_r.
  destruct w; reflexivity.
Qed.

Lemma prints_only_print (text : str) : prints_only (print text).
Proof. intros w. exists (text ++ NEWLINE). reflexivity. Qed.

Lemma prints_only_bind (m : io unit) (k : unit -> io unit) :
  prints_only m -> (forall x, prints_only (k x)) -> prints_only (io_bind m k).
Proof.
  intros Hm Hk w. destruct (Hm w) as [o1 E1].
  destruct (Hk tt (World (files w) (stdout w ++ o1) (clock w))) as [o2 E2].
  exists (o1 ++ o2). erewrite io_bind_run by exact E1. rewrite E2. simpl.
  rewrite app_assoc. reflexivity.
Qed.

Lemma prints_only_lift {A} (r : result A) (a : A) (k : A -> io unit) :
  r = Ok a -> prints_only (k a) -> prints_only (io_bind (lift r) k).
Proof. intros -> H. exact H. Qed.

Lemma prints_only_for_each {A} (xs : list A) (body : A -> io unit) :
  Forall (fun x => prints_only (body x)) xs -> prints_only (for_each xs body).
Proof.
  induction 1 as [|x xs Hx _ IH]; simpl.
  - apply prints_only_ret.
  - apply prints_only_bind; [assumption | intros _; assumption].
Qed.

Ltac decide_test :=
  match goal with
  | |- context [if ?c then _ else _] =>
      let v := eval vm_compute in c in change c with v; cbv iota
  end.

Lemma all_str_strs (strs : list str) : all_str (map JStr strs) = Ok strs.
Proof.
  induction strs as [|x strs IH]; [reflexivity|].
  simpl. rewrite IH. reflexivity.
Qed.

Lemma related_arg_strs (strs : list str) :
  related_arg (JList (map JStr strs)) = Ok strs.
Proof.
  destruct strs as [|x strs]; [reflexivity|].
  unfold related_arg. cbn [map truthy negb].
  change (JStr x :: map JStr strs) with (map JStr (x :: strs)).
  rewrite all_str_strs. reflexivity.
Qed.

Section ScriptProperties.

Variable json_dumps : option Z -> json -> str.
Variable json_loads : str -> option json.

Local Open Scope io_scope.

Lemma preview_title_slide (i : nat) (title subtitle : str) :
  prints_only (preview_slide i (title_slide_of title subtitle)).
Proof. apply prints_only_print. Qed.

Lemma prints_only_bullets (bullets : list str) :
  prints_only
    (for_each (map JStr bullets)
       (fun b => text <- lift (to_str b) ;; print (u " -" ++ u " " ++ text))).
Proof.
  apply prints_only_for_each. induction bullets as [|b bs IH]; constructor.
  - apply prints_only_print.
  - exact IH.
Qed.

Lemma preview_content_slide (i : nat) (kind title : str) (bullets : list str)
    (notes : str) (duration : Z) :
  prints_only (preview_slide i (content_slide kind title bullets notes duration)).
Proof.
  unfold preview_slide, content_slide.
  do 2 (eapply prints_only_lift; [reflexivity | cbv beta]).
  apply prints_only_bind; [apply prints_only_print | intros _].
  eapply prints_only_lift; [reflexivity | cbv beta].
  decide_test.
  apply prints_only_bind.
  - eapply prints_only_lift; [reflexivity | cbv beta].
    apply prints_only_bullets.
  - intros _.
    eapply prints_only_lift; [reflexivity | cbv beta].
    decide_test.
    eapply prints_only_lift; [reflexivity | cbv beta].
    apply prints_only_print.
Qed.

Lemma write_simple_manim_run (deck first : list (str * json)) (rest : list json)
    (out_path : str) (w : world) :
  dict_get deck (u "slides") = Some (JList (JDict first :: rest)) ->
  first <> [] ->
  write_simple_manim json_dumps (JDict deck) out_path w
  = (Ok (JStr out_path),
     World (file_put (files w) out_path
              (manim_scene json_dumps out_path
                 (or_default (dict_get first (u "title")) (JStr (u "Title")))
                 (or_default (dict_get first (u "subtitle")) (JStr (u "")))))
           (stdout w) (clock w)).
Proof.
  intros Hslides Hfirst.
  unfold write_simple_manim, io_bind, lift, subscript.
  rewrite Hslides.
  destruct first as [|item first']; [contradiction|].
  change (subscript_int (JList (JDict (item :: first') :: rest)) 0)
    with (@Ok json (JDict (item :: first'))).
  cbn [truthy negb].
  unfold get, or_default, manim_scene.
  destruct (dict_get (item :: first') (u "title"));
    destruct (dict_get (item :: first') (u "subtitle")); reflexivity.
Qed.

(** A run of [main] on a concept the table holds, given what the entry
    yields for the two fields. *)
Lemma main_run (w : world) (concept_query audience_level content : str)
    (kg : list (str * json)) (entry definition related : json)
    (d : str) (r : list str) :
  file_get (files w) (u "knowledge_graph.json") = Some content ->
  json_loads content = Some (JDict kg) ->
  dict_get kg concept_query = Some entry ->
  get entry (u "definition") (JStr (u "Definition not available.")) = Ok definition ->
  get entry (u "related") (JList []) = Ok related ->
  definition_arg definition = Ok d ->
  related_arg related = Ok r ->
  exists deck script out,
    generate_slide_deck (clock w) concept_query d r audience_level = Ok (deck, script)
    /\ main json_dumps json_loads concept_query audience_level w
       = (Ok tt,
          World (file_put
                   (file_put
                      (file_put (files w) (u "slides.json")
                                (json_dumps (Some 4%Z) deck))
                      (u "script.txt") script)
                   (u "generated_manim.py")
                   (manim_scene json_dumps (u "generated_manim.py")
                      (JStr (u "Introduction to " ++ concept_query))
                      (JStr (truncate_text d 15))))
                (stdout w ++ out) (clock w)).
Proof.
  intros Hfile Hload Hentry Hdef Hrel Hd Hr.
  destruct (generate_slide_deck_shape (clock w) concept_query d r audience_level)
    as (script & n1 & t2 & n2 & n3 & Hgen).
  eassert (Hm : main json_dumps json_loads concept_query audience_level w = _).
  { unfold main.
    erewrite io_bind_run
      by (unfold json_load_from;
          erewrite io_bind_run by (unfold read_file; rewrite Hfile; reflexivity);
          rewrite Hload; reflexivity).
    erewrite io_bind_run
      by (unfold lift, contains, dict_has; rewrite Hentry; reflexivity).
    cbn [negb].
    erewrite io_bind_run by (unfold lift, subscript; rewrite Hentry; reflexivity).
    erewrite io_bind_run by (unfold lift; rewrite Hdef; reflexivity).
    erewrite io_bind_run by (unfold lift, subscript; rewrite Hentry; reflexivity).
    erewrite io_bind_run by (unfold lift; rewrite Hrel; reflexivity).
    erewrite io_bind_run by reflexivity.
    erewrite io_bind_run
      by (unfold lift; rewrite Hd, Hr; cbn [bind clock]; rewrite Hgen; reflexivity).
    cbv beta iota.
    erewrite io_bind_run by reflexivity.
    erewrite io_bind_run by reflexivity.
    erewrite io_bind_run
      by (eapply write_simple_manim_run; [reflexivity | discriminate]).
    reflexivity. }
  match type of Hm with
  | _ = ?m ?W => assert (Ht : prints_only m); [|destruct (Ht W) as [out Eout]]
  end.
  { do 4 (apply prints_only_bind; [apply prints_only_print | intros _]).
    match goal with
    | |- prints_only
           (io_bind (lift (bind (subscript (JDict [_; _; _; (_, JList ?slides)]) _) _)) _) =>
        apply (prints_only_lift (a := slides)); [reflexivity | cbv beta]
    end.
    apply prints_only_bind.
    - apply prints_only_for_each. cbn [enumerate enumerate_from].
      constructor; [exact (preview_title_slide _ _ _)|].
      do 4 (constructor; [exact (preview_content_slide _ _ _ _ _ _)|]).
      constructor.
    - intros _.
      apply prints_only_bind; [apply prints_only_print | intros _].
      apply prints_only_print. }
  do 2 eexists. exists out. split; [exact Hgen|].
  rewrite Hm, Eout. reflexivity.
Qed.

End ScriptProperties.

Lemma get_dict (items : list (str * json)) (key : str) (default : json) :
  get (JDict items) key default = Ok (or_default (dict_get items key) default).
Proof. unfold get, or_default. destruct (dict_get items key); reflexivity. Qed.

Lemma three_files (fs : list (str * str)) (a b c A B C : str) :
  a <> b -> a <> c -> b <> c ->
  let fs' := file_put (file_put (file_put fs a A) b B) c C in
  file_get fs' a = Some A /\ file_get fs' b = Some B /\ file_get fs' c = Some C
  /\ (forall other, other <> a -> other <> b -> other <> c ->
      file_get fs' other = file_get fs other).
Proof.
  intros Hab Hac Hbc fs'. unfold fs'. repeat split.
  - rewrite !file_get_put_other by assumption. apply file_get_put_same.
  - rewrite file_get_put_other by assumption. apply file_get_put_same.
  - apply file_get_put_same.
  - intros other Ha Hb Hc. rewrite !file_get_put_other by assumption.
    reflexivity.
Qed.

Section MoreScriptProperties.

Variable json_dumps : option Z -> json -> str.
Variable json_loads : str -> option json.

(** Where [main] leaves the files, for an entry that is a dict. *)
Lemma main_outputs (w : world) (concept_query audience_level content : str)
    (kg items : list (str * json)) (d : str) (r : list str) :
  file_get (files w) (u "knowledge_graph.json") = Some content ->
  json_loads content = Some (JDict kg) ->
  dict_get kg concept_query = Some (JDict items) ->
  or_default (dict_get items (u "definition"))
             (JStr (u "Definition not available.")) = JStr d ->
  or_default (dict_get items (u "related")) (JList []) = JList (map JStr r) ->
  exists deck script w',
    generate_slide_deck (clock w) concept_query d r audience_level = Ok (deck, script)
    /\ main json_dumps json_loads concept_query audience_level w = (Ok tt, w')
    /\ file_get (files w') (u "slides.json") = Some (json_dumps (Some 4%Z) deck)
    /\ file_get (files w') (u "script.txt") = Some script
    /\ file_get (files w') (u "generated_manim.py")
       = Some (manim_scene json_dumps (u "generated_manim.py")
                 (JStr (u "Introduction to " ++ concept_query))
                 (JStr (truncate_text d 15)))
    /\ (forall other,
          other <> u "slides.json" -> other <> u "script.txt" ->
          other <> u "generated_manim.py" ->
          file_get (files w') other = file_get (files w) other)
    /\ clock w' = clock w
    /\ exists out, stdout w' = stdout w ++ out.
Proof.
  intros Hfile Hload Hentry Hdef Hrel.
  destruct (@main_run json_dumps json_loads w concept_query audience_level content
              kg (JDict items) (JStr d) (JList (map JStr r)) d r)
    as (deck & script & out & Hgen & Hmain); try assumption.
  - unfold get. rewrite <- Hdef. destruct (dict_get items (u "definition")); reflexivity.
  - unfold get. rewrite <- Hrel. destruct (dict_get items (u "related")); reflexivity.
  - reflexivity.
  - apply related_arg_strs.
  - exists deck, script. eexists. split; [exact Hgen|]. split; [exact Hmain|].
    cbn [files stdout clock].
    destruct (@three_files (files w) (u "slides.json") (u "script.txt")
                (u "generated_manim.py") (json_dumps (Some 4%Z) deck) script
                (manim_scene json_dumps (u "generated_manim.py")
                   (JStr (u "Introduction to " ++ concept_query))
                   (JStr (truncate_text d 15))))
      as (Ha & Hb & Hc & Hother); try (apply str_eqb_neq; reflexivity).
    repeat split; try assumption. exists out. reflexivity.
Qed.


(** X10: [write_simple_manim] writes nothing when there is no first slide
    to show: a deck without a [slides] entry raises [KeyError], an empty
    slide list returns [None], and so does a first slide that is falsy, an
    empty dict for instance; the files are untouched in each case. *)
Theorem write_simple_manim_without_first_slide
    (deck : list (str * json)) (out_path : str) (w : world) :
  (dict_get deck (u "slides") = None ->
   write_simple_manim json_dumps (JDict deck) out_path w = (Raise KeyError, w))
  /\ (dict_get deck (u "slides") = Some (JList []) ->
      write_simple_manim json_dumps (JDict deck) out_path w = (Ok JNull, w))
  /\ (forall first rest,
        dict_get deck (u "slides") = Some (JList (first :: rest)) ->
        truthy first = false ->
        write_simple_manim json_dumps (JDict deck) out_path w = (Ok JNull, w)).
Proof.
  repeat split.
  - intros H. unfold write_simple_manim, io_bind, lift, subscript.
    rewrite H. reflexivity.
  - intros H. unfold write_simple_manim, io_bind, lift, subscript.
    rewrite H. reflexivity.
  - intros first rest H Hfalsy.
    unfold write_simple_manim, io_bind, lift, subscript. rewrite H.
    change (subscript_int (JList (first :: rest)) 0) with (@Ok json first).
    cbn [truthy]. rewrite Hfalsy. reflexivity.
Qed.


(** X12: when the table holds the concept with a string definition and a
    list of related names, [main] returns normally having written the
    encoded deck to [slides.json], the narration to [script.txt] and the
    scene to [generated_manim.py], deck and narration being what
    [generate_slide_deck] returns at the clock's reading; every other file,
    [knowledge_graph.json] among them, is left as it was. *)
Theorem main_writes_outputs (w : world)
    (concept_query audience_level content : str)
    (kg items : list (str * json)) (d : str) (r : list str) :
  file_get (files w) (u "knowledge_graph.json") = Some content ->
  json_loads content = Some (JDict kg) ->
  dict_get kg concept_query = Some (JDict items) ->
  dict_get items (u "definition") = Some (JStr d) ->
  dict_get items (u "related") = Some (JList (map JStr r)) ->
  exists deck script w',
    generate_slide_deck (clock w) concept_query d r audience_level = Ok (deck, script)
    /\ main json_dumps json_loads concept_query audience_level w = (Ok tt, w')
    /\ file_get (files w') (u "slides.json") = Some (json_dumps (Some 4%Z) deck)
    /\ file_get (files w') (u "script.txt") = Some script
    /\ file_get (files w') (u "generated_manim.py")
       = Some (manim_scene json_dumps (u "generated_manim.py")
                 (JStr (u "Introduction to " ++ concept_query))
                 (JStr (truncate_text d 15)))
    /\ (forall other,
          other <> u "slides.json" -> other <> u "script.txt" ->
          other <> u "generated_manim.py" ->
          file_get (files w') other = file_get (files w) other)
    /\ clock w' = clock w
    /\ exists out, stdout w' = stdout w ++ out.
Proof.
  intros Hfile Hload Hentry Hdef Hrel.
  apply (main_outputs w concept_query audience_level (content := content)
           (kg := kg) (items := items)); try assumption.
  - rewrite Hdef. reflexivity.
  - rewrite Hrel. reflexivity.
Qed.

(** X13: an entry of the table that has neither a [definition] nor a
    [related] field is not an error: [main] generates and writes the deck
    for the placeholder definition "Definition not available." and no
    related topic. *)
Theorem main_missing_fields_default (w : world)
    (concept_query audience_level content : str)
    (kg items : list (str * json)) :
  file_get (files w) (u "knowledge_graph.json") = Some content ->
  json_loads content = Some (JDict kg) ->
  dict_get kg concept_query = Some (JDict items) ->
  dict_get items (u "definition") = None ->
  dict_get items (u "related") = None ->
  exists deck script w',
    generate_slide_deck (clock w) concept_query
                        (u "Definition not available.") [] audience_level
    = Ok (deck, script)
    /\ main json_dumps json_loads concept_query audience_level w = (Ok tt, w')
    /\ file_get (files w') (u "slides.json") = Some (json_dumps (Some 4%Z) deck)
    /\ file_get (files w') (u "script.txt") = Some script
    /\ field (u "subtitle") (slide 0 deck)
       = Some (JStr (u "Definition not available."))
    /\ field (u "bullets") (slide 3 deck)
       = Some (JList [JStr (u "Further reading not available")]).
Proof.
  intros Hfile Hload Hentry Hdef Hrel.
  destruct (@main_outputs w concept_query audience_level content kg items
              (u "Definition not available.") [])
    as (deck & script & w' & Hgen & Hmain & Hslides & Hscript & _);
    try assumption.
  - rewrite Hdef. reflexivity.
  - rewrite Hrel. reflexivity.
  - exists deck, script, w'. repeat (split; [assumption|]).
    destruct (generate_slide_deck_shape (clock w) concept_query
                (u "Definition not available.") [] audience_level)
      as (script' & n1 & t2 & n2 & n3 & Hshape).
    rewrite Hshape in Hgen. inversion Hgen; subst. split; reflexivity.
Qed.

(** X14: [main] stops before doing anything when the table cannot be
    loaded: [FileNotFoundError] when [knowledge_graph.json] is missing,
    [JSONDecodeError] when its content does not decode; nothing is written
    or printed. *)
Theorem main_load_failures (w : world) (concept_query audience_level : str) :
  (file_get (files w) (u "knowledge_graph.json") = None ->
   main json_dumps json_loads concept_query audience_level w
   = (Raise FileNotFoundError, w))
  /\ (forall content,
        file_get (files w) (u "knowledge_graph.json") = Some content ->
        json_loads content = None ->
        main json_dumps json_loads concept_query audience_level w
        = (Raise JSONDecodeError, w)).
Proof.
  split.
  - intros Hfile. unfold main, json_load_from, read_file, io_bind.
    rewrite Hfile. reflexivity.
  - intros content Hfile Hload.
    unfold main, json_load_from, read_file, io_bind.
    rewrite Hfile, Hload. reflexivity.
Qed.

(** X15: [main] raises [AttributeError], with nothing written and nothing
    printed, when the entry found for the concept is not a dict, and when
    the definition it yields is not a string. *)
Theorem main_bad_entry_raises (w : world)
    (concept_query audience_level content : str)
    (kg : list (str * json)) (entry : json) :
  file_get (files w) (u "knowledge_graph.json") = Some content ->
  json_loads content = Some (JDict kg) ->
  dict_get kg concept_query = Some entry ->
  ((forall items, entry <> JDict items) ->
   main json_dumps json_loads concept_query audience_level w
   = (Raise AttributeError, w))
  /\ (forall items,
        entry = JDict items ->
        (forall s, or_default (dict_get items (u "definition"))
                              (JStr (u "Definition not available.")) <> JStr s) ->
        main json_dumps json_loads concept_query audience_level w
        = (Raise AttributeError, w)).
Proof.
  intros Hfile Hload Hentry.
  assert (Hstart : forall k : json -> io unit,
             io_bind (json_load_from json_loads (u "knowledge_graph.json")) k w
             = k (JDict kg) w).
  { intros k. apply io_bind_run. unfold json_load_from.
    erewrite io_bind_run by (unfold read_file; rewrite Hfile; reflexivity).
    rewrite Hload. reflexivity. }
  split.
  - intros Hnot. unfold main. rewrite Hstart.
    erewrite io_bind_run
      by (unfold lift, contains, dict_has; rewrite Hentry; reflexivity).
    cbn [negb].
    erewrite io_bind_run by (unfold lift, subscript; rewrite Hentry; reflexivity).
    apply io_bind_raise. unfold lift, get.
    destruct entry; try reflexivity. exfalso. eapply Hnot. reflexivity.
  - intros items -> Hdef. unfold main. rewrite Hstart.
    erewrite io_bind_run
      by (unfold lift, contains, dict_has; rewrite Hentry; reflexivity).
    cbn [negb].
    erewrite io_bind_run by (unfold lift, subscript; rewrite Hentry; reflexivity).
    erewrite io_bind_run by (unfold lift; rewrite get_dict; reflexivity).
    erewrite io_bind_run by (unfold lift, subscript; rewrite Hentry; reflexivity).
    erewrite io_bind_run by (unfold lift; rewrite get_dict; reflexivity).
    erewrite io_bind_run by reflexivity.
    apply io_bind_raise. unfold lift.
    destruct (or_default (dict_get items (u "definition"))
                         (JStr (u "Definition not available."))) eqn:E;
      try reflexivity.
    exfalso. eapply Hdef. reflexivity.
Qed.

End MoreScriptProperties.


Lemma write_simple_manim_without_first_slide_witness :
  write_simple_manim sample_dumps (JDict []) (u "scene.py") sample_world
  = (Raise KeyError, sample_world)
  /\ write_simple_manim sample_dumps (JDict [(u "slides", JList [])])
                        (u "scene.py") sample_world
     = (Ok JNull, sample_world)
  /\ write_simple_manim sample_dumps (JDict [(u "slides", JList [JDict []])])
                        (u "scene.py") sample_world
     = (Ok JNull, sample_world).
Proof.
  split; [|split].
  - apply (proj1 (write_simple_manim_without_first_slide sample_dumps
                    [] (u "scene.py") sample_world)).
    reflexivity.
  - apply (proj1 (proj2 (write_simple_manim_without_first_slide sample_dumps
                    [(u "slides", JList [])] (u "scene.py") sample_world))).
    reflexivity.
  - apply (proj2 (proj2 (write_simple_manim_without_first_slide sample_dumps
                    [(u "slides", JList [JDict []])] (u "scene.py") sample_world))
             (JDict []) []); reflexivity.
Defined.

Lemma main_writes_outputs_witness :
  exists deck script w',
    generate_slide_deck (clock sample_world) (u "Trees")
      (u "A hierarchical data structure with nodes.")
      [u "Binary Tree"; u "Graphs"] (u "advanced")
    = Ok (deck, script)
    /\ main sample_dumps sample_loads (u "Trees") (u "advanced") sample_world
       = (Ok tt, w')
    /\ file_get (files w') (u "script.txt") = Some script.
Proof.
  destruct (@main_writes_outputs sample_dumps sample_loads sample_world
              (u "Trees") (u "advanced") (u "{}")
              (match knowledge_graph with JDict kg => kg | _ => [] end)
              [ (u "definition", JStr (u "A hierarchical data structure with nodes."));
                (u "related", JList (map JStr [u "Binary Tree"; u "Graphs"])) ]
              (u "A hierarchical data structure with nodes.")
              [u "Binary Tree"; u "Graphs"]
              eq_refl eq_refl eq_refl eq_refl eq_refl)
    as (deck & script & w' & Hgen & Hmain & _ & Hscript & _).
  exists deck, script, w'. repeat split; assumption.
Defined.

Lemma main_missing_fields_default_witness :
  exists deck script w',
    generate_slide_deck (clock sample_world) (u "Heaps")
      (u "Definition not available.") [] (u "beginner")
    = Ok (deck, script)
    /\ main sample_dumps sample_sparse_loads (u "Heaps") (u "beginner") sample_world
       = (Ok tt, w')
    /\ file_get (files w') (u "script.txt") = Some script.
Proof.
  destruct (@main_missing_fields_default sample_dumps sample_sparse_loads
              sample_world (u "Heaps") (u "beginner") (u "{}")
              [(u "Heaps", JDict [])] []
              eq_refl eq_refl eq_refl eq_refl eq_refl)
    as (deck & script & w' & Hgen & Hmain & _ & Hscript & _).
  exists deck, script, w'. repeat split; assumption.
Defined.

Lemma main_load_failures_witness :
  main sample_dumps sample_loads (u "Trees") (u "beginner") (World [] [] [])
  = (Raise FileNotFoundError, World [] [] [])
  /\ main sample_dumps (fun _ => None) (u "Trees") (u "beginner") sample_world
     = (Raise JSONDecodeError, sample_world).
Proof.
  split.
  - apply (proj1 (main_load_failures sample_dumps sample_loads (World [] [] [])
                    (u "Trees") (u "beginner"))).
    reflexivity.
  - apply (proj2 (main_load_failures sample_dumps (fun _ => None) sample_world
                    (u "Trees") (u "beginner")) (u "{}")); reflexivity.
Defined.

Lemma main_bad_entry_raises_witness :
  main sample_dumps (fun _ => Some (JDict [(u "Heaps", JStr (u "a heap"))]))
       (u "Heaps") (u "beginner") sample_world
  = (Raise AttributeError, sample_world)
  /\ main sample_dumps sample_untyped_loads (u "Heaps") (u "beginner") sample_world
     = (Raise AttributeError, sample_world).
Proof.
  split.
  - apply (proj1 (@main_bad_entry_raises sample_dumps
                    (fun _ => Some (JDict [(u "Heaps", JStr (u "a heap"))]))
                    sample_world (u "Heaps") (u "beginner") (u "{}")
                    [(u "Heaps", JStr (u "a heap"))] (JStr (u "a heap"))
                    eq_refl eq_refl eq_refl)).
    intros items. discriminate.
  - apply (proj2 (@main_bad_entry_raises sample_dumps sample_untyped_loads
                    sample_world (u "Heaps") (u "beginner") (u "{}")
                    [(u "Heaps", JDict [(u "definition", JInt 7)])]
                    (JDict [(u "definition", JInt 7)])
                    eq_refl eq_refl eq_refl)
             [(u "definition", JInt 7)] eq_refl).
    intros s H. vm_compute in H. discriminate H.
Defined.

(** X16: [get_concept_info] subscripts the entry it finds, so a name that
    is a key of the table but whose entry lacks [definition] or [related]
    raises [KeyError], and an entry that is not a dict raises [TypeError];
    none of these is reported as not found. *)
Theorem get_concept_info_missing_field
    (kg : list (str * json)) (name : str) (entry : json) :
  dict_get kg name = Some entry ->
  (forall items, entry = JDict items ->
     dict_get items (u "definition") = None ->
     get_concept_info (JDict kg) name = Raise KeyError)
  /\ (forall items definition, entry = JDict items ->
        dict_get items (u "definition") = Some definition ->
        dict_get items (u "related") = None ->
        get_concept_info (JDict kg) name = Raise KeyError)
  /\ ((forall items, entry <> JDict items) ->
      get_concept_info (JDict kg) name = Raise TypeError).
Proof.
  intros Hentry.
  unfold get_concept_info, contains, dict_has, subscript, bind.
  rewrite Hentry. repeat split.
  - intros items -> Hdef. rewrite Hdef. reflexivity.
  - intros items definition -> Hdef Hrel. rewrite Hdef, Hrel. reflexivity.
  - intros Hnot. destruct entry; try reflexivity.
    exfalso. eapply Hnot. reflexivity.
Qed.

Lemma get_concept_info_missing_field_witness :
  get_concept_info (JDict [(u "Heaps", JDict [(u "related", JList [])])]) (u "Heaps")
  = Raise KeyError
  /\ get_concept_info (JDict [(u "Heaps", JStr (u "a heap"))]) (u "Heaps")
     = Raise TypeError.
Proof.
  split.
  - apply (proj1 (@get_concept_info_missing_field
                    [(u "Heaps", JDict [(u "related", JList [])])] (u "Heaps")
                    (JDict [(u "related", JList [])]) eq_refl)
             [(u "related", JList [])] eq_refl eq_refl).
  - apply (proj2 (proj2 (@get_concept_info_missing_field
                    [(u "Heaps", JStr (u "a heap"))] (u "Heaps")
                    (JStr (u "a heap")) eq_refl))).
    intros items. discriminate.
Defined.

(* ===================================================================== *)
(** ** Which files a run can change *)
(* ===================================================================== *)

Lemma touches_ret {A} (paths : list str) (a : A) : touches_only paths (io_ret a).
Proof. intros w other _. reflexivity. Qed.

Lemma touches_lift {A} (paths : list str) (r : result A) :
  touches_only paths (lift r).
Proof. intros w other _. reflexivity. Qed.

Lemma touches_print (paths : list str) (text : str) :
  touches_only paths (print text).
Proof. intros w other _. reflexivity. Qed.

Lemma touches_utcnow (paths : list str) : touches_only paths utcnow_isoformat.
Proof. intros w other _. reflexivity. Qed.

Lemma touches_read_file (paths : list str) (path : str) :
  touches_only paths (read_file path).
Proof.
  intros w other _. unfold read_file.
  destruct (file_get (files w) path); reflexivity.
Qed.

Lemma touches_write_file (paths : list str) (path content : str) :
  In path paths -> touches_only paths (write_file path content).
Proof.
  intros Hin w other Hother. unfold write_file. cbn [snd files].
  apply file_get_put_other. intros ->. contradiction.
Qed.

Lemma touches_bind {A B} (paths : list str) (m : io A) (k : A -> io B) :
  touches_only paths m -> (forall a, touches_only paths (k a)) ->
  touches_only paths (io_bind m k).
Proof.
  intros Hm Hk w other Hother. unfold io_bind.
  specialize (Hm w other Hother).
  destruct (m w) as [[a|e] w1]; cbn [snd] in *.
  - rewrite (Hk a w1 other Hother). exact Hm.
  - exact Hm.
Qed.

Lemma touches_for_each {A} (paths : list str) (xs : list A) (body : A -> io unit) :
  (forall x, touches_only paths (body x)) ->
  touches_only paths (for_each xs body).
Proof.
  intros Hbody. induction xs as [|x xs IH]; simpl.
  - apply touches_ret.
  - apply touches_bind; [apply Hbody | intros _; exact IH].
Qed.

(** Follows the structure of an action, one construct at a time. *)
Ltac touch :=
  repeat
    match goal with
    | |- touches_only _ (io_ret _) => apply touches_ret
    | |- touches_only _ (lift _) => apply touches_lift
    | |- touches_only _ (print _) => apply touches_print
    | |- touches_only _ utcnow_isoformat => apply touches_utcnow
    | |- touches_only _ (read_file _) => apply touches_read_file
    | |- touches_only _ (write_file _ _) =>
        apply touches_write_file; cbn [In OUTPUT_FILES]; auto
    | |- touches_only _ (io_bind _ _) => apply touches_bind; [|intros ?]
    | |- touches_only _ (for_each _ _) => apply touches_for_each; intros ?
    | |- touches_only _ (if ?c then _ else _) => destruct c
    | |- touches_only _ (match ?x with _ => _ end) => destruct x
    end.

Section WhatARunChanges.

Variable json_dumps : option Z -> json -> str.
Variable json_loads : str -> option json.





(** X18: whatever the decoder makes of the file and however the rest of the
    script ends, [knowledge_graph.py] leaves [knowledge_graph.json] holding
    the encoded literal table, indented by 4, and every other file as it
    was. *)
Theorem knowledge_graph_script_persists (w : world) :
  file_get (files (snd (knowledge_graph_script json_dumps json_loads w)))
           (u "knowledge_graph.json")
  = Some (json_dumps (Some 4%Z) knowledge_graph)
  /\ (forall other, other <> u "knowledge_graph.json" ->
      file_get (files (snd (knowledge_graph_script json_dumps json_loads w))) other
      = file_get (files w) other).
Proof.
  assert (Hrest : forall k : unit -> io unit,
             (forall x, touches_only [] (k x)) ->
             forall other,
               file_get (files (snd (io_bind
                  (json_dump_to json_dumps (u "knowledge_graph.json")
                                knowledge_graph (Some 4%Z)) k w))) other
               = file_get (file_put (files w) (u "knowledge_graph.json")
                             (json_dumps (Some 4%Z) knowledge_graph)) other).
  { intros k Hk other. erewrite io_bind_run by reflexivity.
    rewrite (Hk tt _ other) by (intros []). reflexivity. }
  assert (Hk : forall x : unit,
             touches_only []
               (io_bind (json_load_from json_loads (u "knowledge_graph.json"))
                  (fun kg =>
                     let query := u "Trees" in
                     io_bind (lift (get_concept_info kg query))
                       (fun info =>
                          let '(definition, related) := info in
                          if truthy definition
                          then
                            io_bind (print (u "📘 Concept: " ++ query)) (fun _ =>
                            io_bind (lift (to_str definition)) (fun definition_s =>
                            io_bind (print (u "📖 Definition: " ++ definition_s)) (fun _ =>
                            io_bind (lift (iterate related)) (fun items =>
                            io_bind (lift (join (u ", ") items)) (fun joined =>
                            print (u "🔗 Related Topics: " ++ joined))))))
                          else
                            print (u "❌ Sorry, the concept '" ++ query
                                   ++ u "' was not found in the knowledge graph."))))).
  { intros _. unfold json_load_from. touch. }
  split.
  - unfold knowledge_graph_script. rewrite (Hrest _ Hk).
    apply file_get_put_same.
  - intros other Hother. unfold knowledge_graph_script. rewrite (Hrest _ Hk).
    apply file_get_put_other. assumption.
Qed.

(** X19: when the decoder gives back the table that was encoded,
    [knowledge_graph.py] ends normally having printed the concept "Trees",
    its definition and its related topics joined by commas; when the
    decoder rejects the file the script stops with [JSONDecodeError],
    nothing printed, the file already written. *)
Theorem knowledge_graph_script_runs (w : world) :
  (json_loads (json_dumps (Some 4%Z) knowledge_graph) = Some knowledge_graph ->
   knowledge_graph_script json_dumps json_loads w
   = (Ok tt,
      World (file_put (files w) (u "knowledge_graph.json")
                      (json_dumps (Some 4%Z) knowledge_graph))
            (((stdout w
               ++ (u "📘 Concept: " ++ u "Trees") ++ NEWLINE)
              ++ (u "📖 Definition: "
                  ++ u "A hierarchical data structure with nodes.")
              ++ NEWLINE)
             ++ (u "🔗 Related Topics: " ++ u "Binary Tree, Graphs") ++ NEWLINE)
            (clock w)))
  /\ (json_loads (json_dumps (Some 4%Z) knowledge_graph) = None ->
      knowledge_graph_script json_dumps json_loads w
      = (Raise JSONDecodeError,
         World (file_put (files w) (u "knowledge_graph.json")
                         (json_dumps (Some 4%Z) knowledge_graph))
               (stdout w) (clock w))).
Proof.
  assert (Hinfo : get_concept_info knowledge_graph (u "Trees")
                  = Ok (JStr (u "A hierarchical data structure with nodes."),
                        JList [JStr (u "Binary Tree"); JStr (u "Graphs")]))
    by (vm_compute; reflexivity).
  assert (Hjoin : join (u ", ") [JStr (u "Binary Tree"); JStr (u "Graphs")]
                  = Ok (u "Binary Tree, Graphs"))
    by (vm_compute; reflexivity).
  split; intros Hcodec; unfold knowledge_graph_script;
    erewrite io_bind_run by reflexivity.
  - erewrite io_bind_run
      by (unfold json_load_from;
          erewrite io_bind_run
            by (unfold read_file; cbn [files];
                rewrite file_get_put_same; reflexivity);
          rewrite Hcodec; reflexivity).
    cbv zeta.
    erewrite io_bind_run by (unfold lift; rewrite Hinfo; reflexivity).
    cbv beta iota. cbn [truthy].
    change (match u "A hierarchical data structure with nodes." with
            | [] => false
            | _ :: _ => true
            end) with true.
    cbv iota.
    erewrite io_bind_run by reflexivity.
    erewrite io_bind_run by reflexivity.
    erewrite io_bind_run by reflexivity.
    erewrite io_bind_run by reflexivity.
    erewrite io_bind_run by (unfold lift; rewrite Hjoin; reflexivity).
    reflexivity.
  - apply io_bind_raise. unfold json_load_from.
    erewrite io_bind_run
      by (unfold read_file; cbn [files];
          rewrite file_get_put_same; reflexivity).
    rewrite Hcodec. reflexivity.
Qed.
End WhatARunChanges.


Lemma knowledge_graph_script_persists_witness :
  file_get (files (snd (knowledge_graph_script sample_dumps sample_loads sample_world)))
           (u "slides.json")
  = file_get (files sample_world) (u "slides.json").
Proof.
  apply (proj2 (knowledge_graph_script_persists sample_dumps sample_loads
                  sample_world)).
  apply str_eqb_neq; reflexivity.
Defined.

Lemma knowledge_graph_script_runs_witness :
  knowledge_graph_script sample_dumps sample_loads sample_world
  = (Ok tt,
     World (file_put (files sample_world) (u "knowledge_graph.json")
                     (sample_dumps (Some 4%Z) knowledge_graph))
           (((stdout sample_world
              ++ (u "📘 Concept: " ++ u "Trees") ++ NEWLINE)
             ++ (u "📖 Definition: "
                 ++ u "A hierarchical data structure with nodes.")
             ++ NEWLINE)
            ++ (u "🔗 Related Topics: " ++ u "Binary Tree, Graphs") ++ NEWLINE)
           (clock sample_world)).
Proof.
  exact (proj1 (knowledge_graph_script_runs sample_dumps sample_loads sample_world)
           eq_refl).
Defined.
